(** * ServerStatusMonitor: the unit formatter and the network-speed sampler

    A shallow embedding of [format_units] and
    [ServerStatusMonitor._calc_network_speed] of [main.py], with the Python
    values they compute on:
    - [int] is [Z];
    - [float] is an IEEE-754 binary64 value, a [spec_float] operated on with
      the operations of [SpecFloat] at precision 53 and maximal exponent 1024;
    - [str] is [string];
    - a raised exception is the [Raise] alternative of [result].

    What the sampler reads from its environment, [psutil.net_io_counters()]
    and [datetime.datetime.now().timestamp()], is passed in as arguments. *)

From Stdlib Require Import ZArith List String Ascii Bool Lia.
From Stdlib Require Import Floats.SpecFloat DecimalString.
Import ListNotations.

Local Open Scope string_scope.
Local Open Scope Z_scope.

(** ** Exceptions and results *)

Inductive exn : Set :=
| ZeroDivisionError
| OverflowError
| ValueError
| IndexError.

Inductive result (A : Type) : Type :=
| Ok (a : A)
| Raise (e : exn).

Arguments Ok {A} a.
Arguments Raise {A} e.

Definition bind {A B : Type} (r : result A) (k : A -> result B) : result B :=
  match r with
  | Ok a => k a
  | Raise e => Raise e
  end.

Notation "x <- r ;; k" := (bind r (fun x => k))
  (at level 61, r at next level, right associativity).

Notation "' pat <- r ;; k" := (bind r (fun x => match x with pat => k end))
  (at level 61, pat pattern, r at next level, right associativity).

Definition returns {A : Type} (r : result A) : Prop := exists a, r = Ok a.

Definition raises {A : Type} (r : result A) : Prop := exists e, r = Raise e.

(** ** Python floats *)

Module PyFloat.

Definition prec : Z := 53.
Definition emax : Z := 1024.

Definition float : Set := spec_float.

(** The float nearest to [m * 2^e], ties to even. *)
Definition of_scaled (m e : Z) : float := binary_normalize prec emax m e false.

Definition sub (x y : float) : float := SFsub prec emax x y.
Definition div (x y : float) : float := SFdiv prec emax x y.

Definition zero : float := S754_zero false.

(** [x < y], false when either is a NaN. *)
Definition ltb (x y : float) : bool := SFltb x y.

Definition is_zero (x : float) : bool :=
  match x with
  | S754_zero _ => true
  | _ => false
  end.

Definition is_nan (x : float) : bool :=
  match x with
  | S754_nan => true
  | _ => false
  end.

Definition is_finite (x : float) : bool :=
  match x with
  | S754_zero _ | S754_finite _ _ _ => true
  | _ => false
  end.

Definition signbit (x : float) : bool :=
  match x with
  | S754_zero s | S754_infinity s | S754_finite s _ _ => s
  | S754_nan => false
  end.

Definition valid (x : float) : bool := valid_binary prec emax x.

(** [float(z)] and the implicit conversion of an [int] operand:
    correctly rounded, [OverflowError] beyond the float range. *)
Definition of_int (z : Z) : result float :=
  match of_scaled z 0 with
  | S754_infinity _ => Raise OverflowError
  | x => Ok x
  end.

(** [x / y] on floats: [float_div] raises on a zero divisor and otherwise
    does the IEEE division. *)
Definition truediv (x y : float) : result float :=
  if is_zero y then Raise ZeroDivisionError else Ok (div x y).

(** [a / b] on ints ([long_true_divide]): the correctly rounded quotient. *)
Definition int_truediv (a b : Z) : result float :=
  match b with
  | 0 => Raise ZeroDivisionError
  | _ =>
      let s := xorb (a <? 0) (b <? 0) in
      let '(q, e, l) := SFdiv_core_binary prec emax (Z.abs a) 0 (Z.abs b) 0 in
      match binary_round_aux prec emax s q e l with
      | S754_infinity _ => Raise OverflowError
      | x => Ok x
      end
  end.

(** Exact comparison of a float with an int, as [float_richcompare]
    does it; [None] for a NaN. *)
Definition compare_int (x : float) (z : Z) : option comparison :=
  match x with
  | S754_nan => None
  | S754_infinity s => Some (if s then Lt else Gt)
  | S754_zero _ => Some (0 ?= z)
  | S754_finite s m e =>
      let sm := cond_Zopp s (Zpos m) in
      Some match e with
           | Zneg k => sm ?= z * 2 ^ Zpos k
           | _ => sm * 2 ^ e ?= z
           end
  end.

End PyFloat.

Import PyFloat.

(** ** Fixed-point formatting: the [f] presentation type *)

(** [n / d] rounded to the nearest integer, ties to even ([0 <= n], [0 < d]). *)
Definition round_half_even (n d : Z) : Z :=
  let q := n / d in
  match 2 * (n mod d) ?= d with
  | Lt => q
  | Eq => if Z.even q then q else q + 1
  | Gt => q + 1
  end.

(** [m * 2^e * 10^p] rounded to an integer: the digits of the value
    correctly rounded to [p] decimals. *)
Definition scaled_decimal (p : nat) (m : positive) (e : Z) : Z :=
  let n := Zpos m * 10 ^ Z.of_nat p in
  match e with
  | Zneg k => round_half_even n (2 ^ Zpos k)
  | _ => n * 2 ^ e
  end.

Definition decimal (n : Z) : string := NilZero.string_of_uint (N.to_uint (Z.to_N n)).

Fixpoint zeros (n : nat) : string :=
  match n with
  | O => ""
  | S n' => "0" ++ zeros n'
  end.

Definition zero_pad (width : nat) (s : string) : string :=
  zeros (width - String.length s) ++ s.

Definition fixed_digits (p : nat) (n : Z) : string :=
  match p with
  | O => decimal n
  | _ => decimal (n / 10 ^ Z.of_nat p) ++ "." ++ zero_pad p (decimal (n mod 10 ^ Z.of_nat p))
  end.

Definition sign_prefix (s : bool) : string := if s then "-" else "".

(** [format(x, '.pf')] for a float [x] and [0 <= p]. *)
Definition format_fixed (p : nat) (x : float) : string :=
  match x with
  | S754_nan => "nan"
  | S754_infinity s => sign_prefix s ++ "inf"
  | S754_zero s => sign_prefix s ++ fixed_digits p 0
  | S754_finite s m e => sign_prefix s ++ fixed_digits p (scaled_decimal p m e)
  end.

(** ** Numbers: [int] or [float] *)

Inductive pynum : Set :=
| PInt (z : Z)
| PFloat (x : float).

Definition to_float (n : pynum) : result float :=
  match n with
  | PInt z => of_int z
  | PFloat x => Ok x
  end.

(** [a / b] *)
Definition py_truediv (a b : pynum) : result float :=
  match a, b with
  | PInt x, PInt y => int_truediv x y
  | _, _ =>
      x <- to_float a ;;
      y <- to_float b ;;
      truediv x y
  end.

(** [a < z] and [a >= z] against an int [z] *)
Definition py_lt_int (a : pynum) (z : Z) : bool :=
  match a with
  | PInt x => x <? z
  | PFloat x => match compare_int x z with Some Lt => true | _ => false end
  end.

Definition py_ge_int (a : pynum) (z : Z) : bool :=
  match a with
  | PInt x => z <=? x
  | PFloat x => match compare_int x z with Some (Gt | Eq) => true | _ => false end
  end.

(** The largest precision the formatting of a float takes, and the
    largest number the parser of a format specification reads (on a
    64-bit build). *)
Definition INT_MAX : Z := 2147483647.
Definition PY_SSIZE_T_MAX : Z := 9223372036854775807.

(** [f"{num:.{precision}f}"], in the order of the interpreter: the format
    specification is parsed, and a negative precision or one the parser
    cannot read is no valid specification; then an int is converted to a
    float; then a precision above [INT_MAX] is refused; then the float
    is formatted. *)
Definition format_f (num : pynum) (precision : Z) : result string :=
  if (precision <? 0) || (PY_SSIZE_T_MAX <? precision) then Raise ValueError
  else
    x <- to_float num ;;
    if INT_MAX <? precision then Raise ValueError
    else Ok (format_fixed (Z.to_nat precision) x).

(** [lst[i]] for [0 <= i] *)
Definition index {A : Type} (lst : list A) (i : Z) : result A :=
  match nth_error lst (Z.to_nat i) with
  | Some a => Ok a
  | None => Raise IndexError
  end.

(** ** [format_units] *)

Definition units : list string := ["B"; "KB"; "MB"; "GB"; "TB"].

(** The [while] loop of [format_units]; [unit_index] grows by one in each
    round and the loop stops at 4, so [fuel] rounds are enough from
    [4 - fuel] on (see [format_units_loop_exit]). *)
Fixpoint format_units_loop (fuel : nat) (num : pynum) (unit_index : Z)
  : result (pynum * Z) :=
  if py_ge_int num 1024 && (unit_index <? 4) then
    match fuel with
    | O => Ok (num, unit_index)
    | S fuel' =>
        num' <- py_truediv num (PInt 1024) ;;
        format_units_loop fuel' (PFloat num') (unit_index + 1)
    end
  else Ok (num, unit_index).

Definition format_units (num : pynum) (precision : Z) : result string :=
  '(num, unit_index) <- format_units_loop 4 num 0 ;;
  body <- format_f num precision ;;
  unit <- index units unit_index ;;
  Ok (body ++ " " ++ unit).

(** ** The sampler *)

(** What [psutil.net_io_counters()] returns, with the two fields the
    sampler reads. *)
Record snetio : Set := {
  bytes_sent : Z;
  bytes_recv : Z
}.

(** The plugin object, with the two attributes of the sampler; [None] is
    [None]. *)
Record ServerStatusMonitor : Set := {
  _prev_net : option snetio;
  _prev_ts : option float
}.

Definition __init__ : ServerStatusMonitor :=
  {| _prev_net := None; _prev_ts := None |}.

Definition zero_rate : string * string := ("0.00 KB/s", "0.00 KB/s").

(** The test [self._prev_net and self._prev_ts]: [None] is false, a
    named tuple with fields is true, a float is true unless it is zero. *)
Definition primed (self : ServerStatusMonitor) : bool :=
  match _prev_net self, _prev_ts self with
  | Some _, Some prev_ts => negb (is_zero prev_ts)
  | _, _ => false
  end.

(** The float operands [1024] and [1048576] are converted to. *)
Definition kib : float := of_scaled 1024 0.
Definition mib : float := of_scaled 1048576 0.

(** [delta / time_diff / scale], left to right. *)
Definition speed_value (delta : Z) (time_diff : float) (scale : Z) : result float :=
  r <- py_truediv (PInt delta) (PFloat time_diff) ;;
  py_truediv (PFloat r) (PInt scale).

(** The conditional expression of lines 64 and 65, for one direction:
    [f"{delta / time_diff / 1024:.2f} KB/s" if delta < 1048576
     else f"{delta / time_diff / 1048576:.2f} MB/s"]. *)
Definition speed (delta : Z) (time_diff : float) : result string :=
  if delta <? 1048576 then
    v <- speed_value delta time_diff 1024 ;;
    s <- format_f (PFloat v) 2 ;;
    Ok (s ++ " KB/s")%string
  else
    v <- speed_value delta time_diff 1048576 ;;
    s <- format_f (PFloat v) 2 ;;
    Ok (s ++ " MB/s")%string.

(** Lines 56 to 65: the pair the call returns, or the exception it raises.
    The branch of line 59 is taken when [primed] holds. *)
Definition network_speed (current : snetio) (now : float) (self : ServerStatusMonitor)
  : result (string * string) :=
  match _prev_net self, _prev_ts self with
  | Some prev_net, Some prev_ts =>
      if is_zero prev_ts then Ok zero_rate
      else
        let time_diff := sub now prev_ts in
        let upload := bytes_sent current - bytes_sent prev_net in
        let download := bytes_recv current - bytes_recv prev_net in
        upload <- speed upload time_diff ;;
        download <- speed download time_diff ;;
        Ok (upload, download)
  | _, _ => Ok zero_rate
  end.

(** [_calc_network_speed], on the counters [current] and the time [now] it
    reads: the outcome and the object afterwards. The two assignments of
    lines 67 and 68 are reached only when nothing was raised before. *)
Definition _calc_network_speed (current : snetio) (now : float) (self : ServerStatusMonitor)
  : result (string * string) * ServerStatusMonitor :=
  match network_speed current now self with
  | Ok r => (Ok r, {| _prev_net := Some current; _prev_ts := Some now |})
  | Raise e => (Raise e, self)
  end.

(** An object that holds the snapshot [current] and the time [now]. *)
Definition stored (current : snetio) (now : float) : ServerStatusMonitor :=
  {| _prev_net := Some current; _prev_ts := Some now |}.

(** The selection of the unit as the specification words it (section 4.2,
    steps 3 and 4): the rate in bytes per second, not the byte delta, is
    compared with 1,048,576. *)
Definition spec_speed (delta : Z) (elapsed : float) : result string :=
  rate <- py_truediv (PInt delta) (PFloat elapsed) ;;
  if py_lt_int (PFloat rate) 1048576 then
    v <- py_truediv (PFloat rate) (PInt 1024) ;;
    s <- format_f (PFloat v) 2 ;;
    Ok (s ++ " KB/s")%string
  else
    v <- py_truediv (PFloat rate) (PInt 1048576) ;;
    s <- format_f (PFloat v) 2 ;;
    Ok (s ++ " MB/s")%string.

(** A formatted number that starts with a minus sign. *)
Definition minus_sign (s : string) : bool := prefix "-" s.

(** Inputs for the examples: counters, a time in half seconds since the
    epoch, and the object that sampled them. *)
Definition counters (sent recv : Z) : snetio :=
  {| bytes_sent := sent; bytes_recv := recv |}.

Definition half_seconds (n : Z) : float := of_scaled n (-1).

Definition sampled (sent recv : Z) (n : Z) : ServerStatusMonitor :=
  {| _prev_net := Some {| bytes_sent := sent; bytes_recv := recv |};
     _prev_ts := Some (of_scaled n (-1)) |}.

(** ** The rest of the plugin *)

(** What is raised outside the computations above: by a reading of the
    operating system, or by the event loop. [NotException] stands for a
    [BaseException] that is no [Exception], such as [CancelledError]. *)
Inductive exception : Set :=
| Builtin (e : exn)
| AttributeError
| AccessDenied
| OtherException (name : string)
| NotException (name : string).

(** [isinstance(e, Exception)] *)
Definition is_Exception (e : exception) : bool :=
  match e with
  | NotException _ => false
  | _ => true
  end.

Inductive outcome (A : Type) : Type :=
| Returned (a : A)
| Raised (e : exception).

Arguments Returned {A} a.
Arguments Raised {A} e.

Definition obind {A B : Type} (r : outcome A) (k : A -> outcome B) : outcome B :=
  match r with
  | Returned a => k a
  | Raised e => Raised e
  end.

Notation "x <-- r ;; k" := (obind r (fun x => k))
  (at level 61, r at next level, right associativity).

Notation "' pat <-- r ;; k" := (obind r (fun x => match x with pat => k end))
  (at level 61, pat pattern, r at next level, right associativity).

Definition of_result {A : Type} (r : result A) : outcome A :=
  match r with
  | Ok a => Returned a
  | Raise e => Raised (Builtin e)
  end.

(** What the interpreter gives and is not computed here: [str(e)] of an
    exception and [str(x)] of a float. *)
Record interpreter : Type := {
  str_exception : exception -> string;
  str_float : float -> string
}.

(** [str(z)] of an int, and of an int or [None]. *)
Definition str_int (z : Z) : string :=
  if z <? 0 then ("-" ++ decimal (- z))%string else decimal z.

Definition str_int_or_None (o : option Z) : string :=
  match o with
  | Some z => str_int z
  | None => "None"
  end.

(** The truth value of a string, and of a string or [None]. *)
Definition nonempty (s : string) : bool :=
  match s with
  | EmptyString => false
  | String _ _ => true
  end.

Definition truthy (o : option string) : bool :=
  match o with
  | Some s => nonempty s
  | None => false
  end.

(** [o or default] *)
Definition or_else (o : option string) (default : string) : string :=
  match o with
  | Some s => if nonempty s then s else default
  | None => default
  end.

Definition newline : string := String "010" "".

(** *** [get_disk_root] *)

(** On the string [platform.system()] gives. *)
Definition get_disk_root (system : string) : string :=
  if (system =? "Windows")%string then "C:\" else "/".

(** *** [_get_uptime] *)

(** A [timedelta], normalized as the constructor leaves it:
    [0 <= seconds < 86400] and [0 <= microseconds < 1000000]. *)
Record timedelta : Set := {
  days : Z;
  seconds : Z;
  microseconds : Z
}.

(** [a - b] for two naive datetimes, each given as the microseconds of its
    wall-clock reading since the first instant of the calendar. *)
Definition datetime_sub (a b : Z) : timedelta :=
  let us := a - b in
  {| days := us / 86400000000;
     seconds := us mod 86400000000 / 1000000;
     microseconds := us mod 1000000 |}.

(** On the datetimes [datetime.datetime.now()] and
    [datetime.datetime.fromtimestamp(psutil.boot_time())]. *)
Definition _get_uptime (now boot : Z) : string :=
  let delta := datetime_sub now boot in
  let hours := seconds delta / 3600 in
  let minutes := seconds delta mod 3600 / 60 in
  (str_int (days delta) ++ "天" ++ str_int hours ++ "时" ++ str_int minutes ++ "分")%string.

(** *** [_get_load_avg] *)

(** On what [os.getloadavg()] does: it returns three floats, or raises
    (AttributeError where the function does not exist). *)
Definition _get_load_avg (getloadavg : outcome (float * float * float))
  : outcome (option string) :=
  match getloadavg with
  | Returned (load0, load1, load2) =>
      Returned (Some (format_fixed 2 load0 ++ "/" ++ format_fixed 2 load1
                        ++ "/" ++ format_fixed 2 load2)%string)
  | Raised AttributeError => Returned None
  | Raised e => Raised e
  end.

(** *** [query_status] *)

(** What [psutil.virtual_memory()] and [psutil.disk_usage(path)] return,
    with the fields the report reads. *)
Record svmem : Set := {
  vm_percent : float;
  vm_used : Z;
  vm_total : Z
}.

Record sdiskusage : Set := {
  du_percent : float;
  du_used : Z;
  du_total : Z
}.

(** The readings of one run of [query_status]. Each call into psutil and
    [os.getloadavg] returns or raises. [gather] is the awaited
    [asyncio.gather], for the path handed to [psutil.disk_usage]; its
    fourth component is what consuming the iterator of
    [psutil.process_iter] gives later, the number of processes.
    [net_connections] is the length of the list returned; [timestamp],
    [clock] and [report_time] are the three readings of
    [datetime.datetime.now()], the last one already through [strftime]. *)
Record env : Type := {
  system : string;
  release : string;
  gather : string -> outcome (float * svmem * sdiskusage * outcome nat);
  getloadavg : outcome (float * float * float);
  net_io_counters : outcome snetio;
  timestamp : float;
  cpu_count : outcome (option Z);
  net_connections : outcome nat;
  boot_time : outcome Z;
  clock : Z;
  report_time : string
}.

(** Lines 76 to 84. *)
Definition before_sampling (E : env)
  : outcome (float * svmem * sdiskusage * outcome nat * option string) :=
  '(cpu_percent, mem_info, disk_info, processes) <--
     gather E (get_disk_root (system E)) ;;
  load_avg <-- _get_load_avg (getloadavg E) ;;
  Returned (cpu_percent, mem_info, disk_info, processes, load_avg).

(** Line 85: [self._calc_network_speed()] on its two readings. *)
Definition sampling (E : env) (self : ServerStatusMonitor)
  : outcome (string * string) * ServerStatusMonitor :=
  match net_io_counters E with
  | Raised e => (Raised e, self)
  | Returned current =>
      (of_result (fst (_calc_network_speed current (timestamp E) self)),
       snd (_calc_network_speed current (timestamp E) self))
  end.

(** The list of lines 90 to 103, with what its f-strings need. *)
Definition status_report (py : interpreter) (E : env)
    (cpu_percent : float) (mem_info : svmem) (disk_info : sdiskusage)
    (load_avg : option string) (upload_speed download_speed : string)
    (cpu_cores : option Z) (net_conns : nat) (uptime : string)
    (mem_used mem_total disk_used disk_total : string) (processes : nat)
  : list string :=
  [ "🔍 状态监控";
    "======================";
    "▪ 运行时长 : " ++ uptime;
    if truthy load_avg
    then "▪ 系统负载 : " ++ or_else load_avg "N/A" ++ " (1/5/15min)"
    else "";
    "▪ CPU使用  : " ++ str_int_or_None cpu_cores ++ "核 "
      ++ str_float py cpu_percent ++ "%";
    "▪ 内存状态 : " ++ str_float py (vm_percent mem_info) ++ "% ("
      ++ mem_used ++ "/" ++ mem_total ++ ")";
    "▪ 磁盘使用 : " ++ str_float py (du_percent disk_info) ++ "% ("
      ++ disk_used ++ "/" ++ disk_total ++ ")";
    "▪ 网络速率 : ↑" ++ upload_speed ++ "  ↓" ++ download_speed;
    "▪ 进程状态 : " ++ str_int (Z.of_nat processes) ++ "运行中 | "
      ++ str_int (Z.of_nat net_conns) ++ "连接数";
    "▪ 系统版本 : " ++ system E ++ " " ++ release E;
    "🕒 报告时间 : " ++ report_time E;
    "======================" ]%string.

(** The lines that are sent: [[line for line in status_report if line]]. *)
Definition sent_lines (report : list string) : list string :=
  filter nonempty report.

(** Lines 86 to 106, after the sampler returned: the text of the report. *)
Definition after_sampling (py : interpreter) (E : env)
    (cpu_percent : float) (mem_info : svmem) (disk_info : sdiskusage)
    (processes : outcome nat) (load_avg : option string)
    (upload_speed download_speed : string)
  : outcome string :=
  cpu_cores <-- cpu_count E ;;
  net_conns <-- net_connections E ;;
  boot <-- boot_time E ;;
  mem_used <-- of_result (format_units (PInt (vm_used mem_info)) 2) ;;
  mem_total <-- of_result (format_units (PInt (vm_total mem_info)) 2) ;;
  disk_used <-- of_result (format_units (PInt (du_used disk_info)) 2) ;;
  disk_total <-- of_result (format_units (PInt (du_total disk_info)) 2) ;;
  processes <-- processes ;;
  Returned (concat newline
              (sent_lines
                 (status_report py E cpu_percent mem_info disk_info load_avg
                    upload_speed download_speed cpu_cores net_conns
                    (_get_uptime (clock E) boot)
                    mem_used mem_total disk_used disk_total processes))).

(** The body of the [try], lines 75 to 106: the text it gets to yield or
    the exception that ends it, and the object afterwards. *)
Definition try_body (py : interpreter) (E : env) (self : ServerStatusMonitor)
  : outcome string * ServerStatusMonitor :=
  match before_sampling E with
  | Raised e => (Raised e, self)
  | Returned (cpu_percent, mem_info, disk_info, processes, load_avg) =>
      match sampling E self with
      | (Raised e, self') => (Raised e, self')
      | (Returned (upload_speed, download_speed), self') =>
          (after_sampling py E cpu_percent mem_info disk_info processes load_avg
             upload_speed download_speed, self')
      end
  end.

Definition permission_message : string := "⛔ 权限不足，请以重现尝试！".

Definition failure_message (py : interpreter) (e : exception) : string :=
  ("❗ 监控异常：" ++ str_exception py e)%string.

(** The two [except] clauses, lines 108 to 111, in their order. *)
Definition handler (py : interpreter) (e : exception) : outcome string :=
  match e with
  | AccessDenied => Returned permission_message
  | NotException _ => Raised e
  | _ => Returned (failure_message py e)
  end.

(** [query_status]: the text of the one message it yields, or what it
    raises without yielding, and the object afterwards. *)
Definition query_status (py : interpreter) (E : env) (self : ServerStatusMonitor)
  : outcome string * ServerStatusMonitor :=
  match try_body py E self with
  | (Returned text, self') => (Returned text, self')
  | (Raised e, self') => (handler py e, self')
  end.

(** One of the readings of a run raises [e]. *)
Definition reading_raises (E : env) (e : exception) : Prop :=
  gather E (get_disk_root (system E)) = Raised e \/
  (exists cpu_percent mem_info disk_info,
     gather E (get_disk_root (system E))
       = Returned (cpu_percent, mem_info, disk_info, Raised e)) \/
  getloadavg E = Raised e \/
  net_io_counters E = Raised e \/
  cpu_count E = Raised e \/
  net_connections E = Raised e \/
  boot_time E = Raised e.

(** An interpreter and the readings of a run, for the examples: a Linux
    host up for 1 day, 2 hours and 3 minutes, with the outcome of
    [psutil.net_connections()] and the time of the sample left open. *)
Definition example_interpreter : interpreter :=
  {| str_exception := fun _ => "float division by zero";
     str_float := format_fixed 1 |}.

Definition example_env (conns : outcome nat) (half_second : Z) : env :=
  {| system := "Linux";
     release := "6.1.0";
     gather := fun _ =>
       Returned (of_scaled 25 (-1),
                 {| vm_percent := of_scaled 125 (-1);
                    vm_used := 4294967296; vm_total := 8589934592 |},
                 {| du_percent := of_scaled 50 0;
                    du_used := 53687091200; du_total := 107374182400 |},
                 Returned 150%nat);
     getloadavg := Returned (of_scaled 1 (-1), of_scaled 1 (-2), of_scaled 0 0);
     net_io_counters := Returned (counters 5000 7000);
     timestamp := half_seconds half_second;
     cpu_count := Returned (Some 4);
     net_connections := conns;
     boot_time := Returned 0;
     clock := 93784000000;
     report_time := "2025-01-01 12:00:00" |}.

(** ** The example inputs are binary64 values *)

Lemma example_times_valid :
  forallb (fun n => valid (half_seconds n)) [180; 200; 201; 220; 3400000000; 3400000020]
    = true.
Proof. vm_compute. reflexivity. Qed.

(** ** Facts about rounding *)

Section Rounding.

Lemma digits2_pos_gt (m : positive) : Zpos m < 2 ^ Zpos (digits2_pos m).
Proof.
  induction m as [m IH | m IH | ]; cbn [digits2_pos].
  - rewrite Pos2Z.inj_succ, Z.pow_succ_r by lia. lia.
  - rewrite Pos2Z.inj_succ, Z.pow_succ_r by lia. lia.
  - reflexivity.
Qed.

Lemma digits2_pos_le (m : positive) (k : Z) :
  Zpos m < 2 ^ k -> Zpos (digits2_pos m) <= k.
Proof.
  revert k. induction m as [m IH | m IH | ]; intros k H; cbn [digits2_pos].
  - destruct (Z.leb_spec k 0) as [Hk | Hk].
    + assert (2 ^ k <= 2 ^ 0) by (apply Z.pow_le_mono_r; lia). cbn in *. lia.
    + replace k with (Z.succ (k - 1)) in H by lia.
      rewrite Z.pow_succ_r in H by lia.
      specialize (IH (k - 1)). rewrite Pos2Z.inj_succ. lia.
  - destruct (Z.leb_spec k 0) as [Hk | Hk].
    + assert (2 ^ k <= 2 ^ 0) by (apply Z.pow_le_mono_r; lia). cbn in *. lia.
    + replace k with (Z.succ (k - 1)) in H by lia.
      rewrite Z.pow_succ_r in H by lia.
      specialize (IH (k - 1)). rewrite Pos2Z.inj_succ. lia.
  - destruct (Z.leb_spec k 0) as [Hk | Hk]; [ | lia ].
    assert (2 ^ k <= 2 ^ 0) by (apply Z.pow_le_mono_r; lia). cbn in *. lia.
Qed.

Lemma Zdigits2_gt (m : Z) : 0 <= m -> m < 2 ^ Zdigits2 m.
Proof.
  destruct m as [ | m | m ]; cbn [Zdigits2]; intros H.
  - reflexivity.
  - apply digits2_pos_gt.
  - lia.
Qed.

Lemma Zdigits2_le (m k : Z) : 0 <= m -> 0 <= k -> m < 2 ^ k -> Zdigits2 m <= k.
Proof.
  destruct m as [ | m | m ]; cbn [Zdigits2]; intros H Hk Hlt.
  - exact Hk.
  - now apply digits2_pos_le.
  - lia.
Qed.

Lemma Zdigits2_nonneg (m : Z) : 0 <= Zdigits2 m.
Proof. destruct m; cbn; lia. Qed.

Lemma iter_pos_invariant {A : Type} (P : A -> Prop) (f : A -> A) :
  (forall x, P x -> P (f x)) -> forall n x, P x -> P (iter_pos f n x).
Proof.
  intros Hf. induction n as [n IH | n IH | ]; intros x Hx; cbn [iter_pos]; auto.
Qed.

Lemma shr_1_m (r : shr_record) : 0 <= shr_m r -> shr_m (shr_1 r) = shr_m r / 2.
Proof.
  destruct r as [m r s]. cbn [shr_m]. intros H.
  destruct m as [ | [ m | m | ] | m ]; cbn [shr_1 shr_m].
  - reflexivity.
  - apply Z.div_unique with (r := 1); lia.
  - apply Z.div_unique with (r := 0); lia.
  - reflexivity.
  - lia.
Qed.

Lemma shr_1_nonneg (r : shr_record) : 0 <= shr_m r -> 0 <= shr_m (shr_1 r).
Proof. intros H. rewrite shr_1_m by exact H. apply Z.div_pos; lia. Qed.

Lemma pow2_xO (n : positive) : 2 ^ Zpos n~0 = 2 ^ Zpos n * 2 ^ Zpos n.
Proof.
  replace (Zpos n~0) with (Zpos n + Zpos n) by lia.
  apply Z.pow_add_r; lia.
Qed.

Lemma pow2_xI (n : positive) : 2 ^ Zpos n~1 = 2 * (2 ^ Zpos n * 2 ^ Zpos n).
Proof.
  replace (Zpos n~1) with (Z.succ (Zpos n~0)) by lia.
  rewrite Z.pow_succ_r, pow2_xO by lia. reflexivity.
Qed.

Lemma iter_shr_1_m (n : positive) :
  forall r, 0 <= shr_m r -> shr_m (iter_pos shr_1 n r) = shr_m r / 2 ^ Zpos n.
Proof.
  assert (Hnn : forall k r, 0 <= shr_m r -> 0 <= shr_m (iter_pos shr_1 k r)).
  { intros k. apply (iter_pos_invariant (fun r => 0 <= shr_m r)), shr_1_nonneg. }
  assert (Hp : forall k : positive, 0 < 2 ^ Zpos k) by (intros k; apply Z.pow_pos_nonneg; lia).
  induction n as [n IH | n IH | ]; intros r Hr; cbn [iter_pos].
  - rewrite IH, IH, shr_1_m by auto using shr_1_nonneg.
    specialize (Hp n).
    rewrite pow2_xI, !Z.div_div by lia. reflexivity.
  - rewrite IH, IH by auto.
    specialize (Hp n).
    rewrite pow2_xO, !Z.div_div by lia. reflexivity.
  - rewrite shr_1_m by exact Hr. reflexivity.
Qed.

Lemma shr_record_of_loc_m (m : Z) (l : location) : shr_m (shr_record_of_loc m l) = m.
Proof. destruct l as [ | [ | | ] ]; reflexivity. Qed.

Lemma fexp_eq (x : Z) : fexp prec emax x = Z.max (x - 53) (-1074).
Proof. reflexivity. Qed.

(** The first step of rounding: the mantissa is cut down to at most 53
    bits and the exponent raised accordingly. *)
Lemma shr_fexp_spec (m e : Z) (l : location) :
  0 <= m ->
  0 <= shr_m (fst (shr_fexp prec emax m e l)) < 2 ^ 53 /\
  snd (shr_fexp prec emax m e l) = Z.max e (fexp prec emax (Zdigits2 m + e)).
Proof.
  intros Hm. unfold shr_fexp. rewrite fexp_eq.
  pose proof (Zdigits2_gt m Hm) as Hd.
  pose proof (Zdigits2_nonneg m) as Hd0.
  set (d := Zdigits2 m) in *.
  destruct (Z.max (d + e - 53) (-1074) - e) as [ | n | n ] eqn:Hn; cbn [shr fst snd].
  - rewrite shr_record_of_loc_m. split; [ split; [ exact Hm | ] | lia ].
    apply Z.lt_le_trans with (1 := Hd). apply Z.pow_le_mono_r; lia.
  - rewrite iter_shr_1_m by (rewrite shr_record_of_loc_m; exact Hm).
    rewrite shr_record_of_loc_m.
    assert (Hp : 0 < 2 ^ Zpos n) by (apply Z.pow_pos_nonneg; lia).
    split; [ split; [ apply Z.div_pos; lia | ] | lia ].
    apply Z.div_lt_upper_bound; [ exact Hp | ].
    apply Z.lt_le_trans with (1 := Hd).
    rewrite <- Z.pow_add_r by lia.
    apply Z.pow_le_mono_r; lia.
  - rewrite shr_record_of_loc_m. split; [ split; [ exact Hm | ] | lia ].
    apply Z.lt_le_trans with (1 := Hd). apply Z.pow_le_mono_r; lia.
Qed.

Lemma round_nearest_even_bounds (m : Z) (l : location) :
  m <= round_nearest_even m l <= m + 1.
Proof.
  destruct l as [ | [ | | ] ]; cbn [round_nearest_even]; try lia.
  destruct (Z.even m); lia.
Qed.

(** Rounding a non-negative mantissa gives a zero, a finite float or an
    infinity, with the sign asked for. *)
Lemma binary_round_aux_sign (s : bool) (m e : Z) (l : location) :
  0 <= m ->
  is_nan (binary_round_aux prec emax s m e l) = false /\
  signbit (binary_round_aux prec emax s m e l) = s.
Proof.
  intros Hm. unfold binary_round_aux.
  pose proof (shr_fexp_spec m e l Hm) as [[H1 _] _].
  destruct (shr_fexp prec emax m e l) as [mrs' e']. cbn [fst snd] in H1.
  pose proof (round_nearest_even_bounds (shr_m mrs') (loc_of_shr_record mrs')) as Hr.
  set (m1 := round_nearest_even (shr_m mrs') (loc_of_shr_record mrs')) in *.
  assert (Hm1 : 0 <= m1) by lia.
  pose proof (shr_fexp_spec m1 e' loc_Exact Hm1) as [[H2 _] _].
  destruct (shr_fexp prec emax m1 e' loc_Exact) as [mrs'' e'']. cbn [fst snd] in H2.
  destruct (shr_m mrs'') as [ | k | k ]; [ | | lia ].
  - split; reflexivity.
  - destruct (e'' <=? emax - prec); split; reflexivity.
Qed.

(** No overflow when the value is below [2^1023]. *)
Lemma binary_round_aux_finite (s : bool) (m e : Z) (l : location) :
  0 <= m -> e <= 970 -> Zdigits2 m + e <= 1023 ->
  is_finite (binary_round_aux prec emax s m e l) = true.
Proof.
  intros Hm He Hd. unfold binary_round_aux.
  pose proof (shr_fexp_spec m e l Hm) as [[H1 H1'] He'].
  destruct (shr_fexp prec emax m e l) as [mrs' e']. cbn [fst snd] in H1, H1', He'.
  pose proof (round_nearest_even_bounds (shr_m mrs') (loc_of_shr_record mrs')) as Hr.
  set (m1 := round_nearest_even (shr_m mrs') (loc_of_shr_record mrs')) in *.
  assert (Hm1 : 0 <= m1) by lia.
  assert (Hd1 : Zdigits2 m1 <= 54).
  { apply Zdigits2_le; [ exact Hm1 | lia | ].
    change (2 ^ 54) with (2 * 2 ^ 53). lia. }
  pose proof (shr_fexp_spec m1 e' loc_Exact Hm1) as [[H2 _] He''].
  destruct (shr_fexp prec emax m1 e' loc_Exact) as [mrs'' e'']. cbn [fst snd] in H2, He''.
  rewrite fexp_eq in He', He''.
  destruct (shr_m mrs'') as [ | k | k ]; [ reflexivity | | lia ].
  replace (e'' <=? emax - prec) with true; [ reflexivity | ].
  symmetry. apply Z.leb_le. change (emax - prec) with 971. lia.
Qed.

End Rounding.

(** ** Facts about the float operations *)

Section FloatFacts.

Lemma iter_xO_Z (m d : positive) : Zpos (Pos.iter xO m d) = Zpos m * 2 ^ Zpos d.
Proof.
  induction d as [ | d IH ] using Pos.peano_ind.
  - cbn. lia.
  - rewrite Pos.iter_succ, Pos2Z.inj_xO, IH, Pos2Z.inj_succ, Z.pow_succ_r by lia. lia.
Qed.

Lemma of_scaled_sign (z e : Z) :
  is_nan (of_scaled z e) = false /\ signbit (of_scaled z e) = (z <? 0).
Proof.
  unfold of_scaled, binary_normalize, binary_round.
  destruct z as [ | m | m ].
  - split; reflexivity.
  - destruct (shl_align m e _) as [mz ez]. apply binary_round_aux_sign. lia.
  - destruct (shl_align m e _) as [mz ez]. apply binary_round_aux_sign. lia.
Qed.

Lemma binary_round_int_finite (s : bool) (m : positive) :
  Zpos m < 2 ^ 1023 -> is_finite (binary_round prec emax s m 0) = true.
Proof.
  intros H. unfold binary_round, shl_align. rewrite fexp_eq.
  pose proof (digits2_pos_le m 1023 H) as Hd.
  pose proof (digits2_pos_gt m) as Hg.
  set (d := Zpos (digits2_pos m)) in *.
  assert (Hd0 : 0 < d) by (subst d; lia).
  destruct (Z.max (d + 0 - 53) (-1074) - 0) as [ | k | k ] eqn:Hk.
  - apply binary_round_aux_finite; cbn [Zdigits2]; lia.
  - apply binary_round_aux_finite; cbn [Zdigits2]; lia.
  - apply binary_round_aux_finite; [ lia | lia | ].
    assert (Hlt : Zpos (Pos.iter xO m k) < 2 ^ (d + Zpos k)).
    { rewrite iter_xO_Z, Z.pow_add_r by lia.
      apply Z.mul_lt_mono_pos_r; [ apply Z.pow_pos_nonneg; lia | exact Hg ]. }
    pose proof (Zdigits2_le (Zpos (Pos.iter xO m k)) (d + Zpos k)) as Hle.
    lia.
Qed.

(** An int below [2^1023] in absolute value converts to a float. *)
Lemma of_int_returns (z : Z) : Z.abs z < 2 ^ 1023 -> returns (of_int z).
Proof.
  intros H. unfold of_int, of_scaled, binary_normalize.
  destruct z as [ | m | m ].
  - eexists; reflexivity.
  - pose proof (binary_round_int_finite false m H) as Hf.
    destruct (binary_round prec emax false m 0); try discriminate; eexists; reflexivity.
  - pose proof (binary_round_int_finite true m H) as Hf.
    destruct (binary_round prec emax true m 0); try discriminate; eexists; reflexivity.
Qed.

Lemma of_int_Ok (z : Z) (x : float) :
  of_int z = Ok x ->
  x = of_scaled z 0 /\ is_finite x = true /\ signbit x = (z <? 0).
Proof.
  unfold of_int. intros H.
  destruct (of_scaled_sign z 0) as [Hn Hs].
  destruct (of_scaled z 0) eqn:E; inversion H; subst; try discriminate;
    repeat split; exact Hs.
Qed.

Lemma of_int_Raise (z : Z) (e : exn) : of_int z = Raise e -> e = OverflowError.
Proof.
  unfold of_int. destruct (of_scaled z 0); intros H; inversion H; reflexivity.
Qed.

Lemma div_eucl_nonneg (a b q r : Z) :
  0 <= a -> 0 < b -> Z.div_eucl a b = (q, r) -> 0 <= q.
Proof.
  intros Ha Hb H.
  pose proof (Z_div_mod a b ltac:(lia)) as Hdm. rewrite H in Hdm.
  nia.
Qed.

(** The quotient by a float that is neither zero nor NaN, of a float that
    is no NaN, is no NaN unless both are infinite, and has the sign of
    the operands' signs combined. *)
Lemma div_sign (x y : float) :
  is_nan x = false -> is_nan y = false -> is_zero y = false ->
  is_finite x = true \/ is_finite y = true ->
  is_nan (div x y) = false /\ signbit (div x y) = xorb (signbit x) (signbit y).
Proof.
  intros Hx Hy Hz Hf.
  destruct x as [sx | sx | | sx mx ex], y as [sy | sy | | sy my ey];
    try discriminate; cbn [div SFdiv]; try (split; reflexivity).
  - destruct Hf; discriminate.
  - unfold SFdiv_core_binary.
    match goal with
    | |- context [Z.div_eucl ?a ?b] =>
        assert (Ha : 0 <= a);
        [ | destruct (Z.div_eucl a b) as [q r] eqn:Hqr ]
    end.
    + match goal with
      | |- 0 <= match ?s with _ => _ end => destruct s eqn:Hs
      end; try lia.
      apply Z.shiftl_nonneg. lia.
    + apply binary_round_aux_sign.
      eapply div_eucl_nonneg; [ exact Ha | | exact Hqr ]. lia.
Qed.

Lemma ltb_zero_l (x : float) :
  ltb zero x = true -> is_nan x = false /\ is_zero x = false /\ signbit x = false.
Proof. destruct x as [s | [ | ] | | [ | ] m e]; cbn; intros H; try discriminate; auto. Qed.

Lemma ltb_zero_r (x : float) :
  ltb x zero = true -> is_nan x = false /\ is_zero x = false /\ signbit x = true.
Proof. destruct x as [s | [ | ] | | [ | ] m e]; cbn; intros H; try discriminate; auto. Qed.

Lemma minus_sign_dash (s : string) : minus_sign (String "-" s) = true.
Proof. unfold minus_sign. cbn. destruct s; reflexivity. Qed.

Lemma format_fixed_negative (p : nat) (x : float) (unit : string) :
  is_nan x = false -> signbit x = true ->
  minus_sign (format_fixed p x ++ unit) = true.
Proof.
  destruct x as [s | s | | s m e]; cbn [is_nan signbit]; intros Hn Hs;
    try discriminate; subst s; unfold format_fixed, sign_prefix;
    cbn [append]; apply minus_sign_dash.
Qed.

Lemma of_int_1024 : of_int 1024 = Ok (of_scaled 1024 0).
Proof. reflexivity. Qed.

Lemma of_int_1048576 : of_int 1048576 = Ok (of_scaled 1048576 0).
Proof. reflexivity. Qed.

End FloatFacts.

(** ** One direction: the rate string *)

Section Speed.

Lemma truediv_int_const (x : float) (c : Z) (y : float) :
  of_int c = Ok y -> is_zero y = false ->
  py_truediv (PFloat x) (PInt c) = Ok (div x y).
Proof.
  intros Hc Hy. unfold py_truediv, to_float, bind, truediv.
  rewrite Hc, Hy. reflexivity.
Qed.

Lemma speed_value_Ok (delta : Z) (time_diff x : float) (c : Z) (y : float) :
  of_int delta = Ok x -> is_zero time_diff = false ->
  of_int c = Ok y -> is_zero y = false ->
  speed_value delta time_diff c = Ok (div (div x time_diff) y).
Proof.
  intros Hx Ht Hc Hy. unfold speed_value.
  unfold py_truediv at 1. unfold to_float, bind at 1 2 3, truediv.
  rewrite Hx, Ht. cbn [bind].
  now apply truediv_int_const.
Qed.

Lemma speed_value_overflow (delta : Z) (time_diff : float) (c : Z) :
  of_int delta = Raise OverflowError ->
  speed_value delta time_diff c = Raise OverflowError.
Proof.
  intros Hx. unfold speed_value, py_truediv, to_float, bind. rewrite Hx. reflexivity.
Qed.

Lemma speed_value_zero_div (delta : Z) (time_diff x : float) (c : Z) :
  of_int delta = Ok x -> is_zero time_diff = true ->
  speed_value delta time_diff c = Raise ZeroDivisionError.
Proof.
  intros Hx Ht. unfold speed_value, py_truediv, to_float, bind, truediv.
  rewrite Hx, Ht. reflexivity.
Qed.

(** The rate string when nothing is raised: the unit follows the byte
    delta, the number is the delta over the interval over the unit. *)
Lemma speed_Ok (delta : Z) (time_diff x : float) :
  of_int delta = Ok x -> is_zero time_diff = false ->
  speed delta time_diff =
    Ok (if delta <? 1048576
        then (format_fixed 2 (div (div x time_diff) kib) ++ " KB/s")%string
        else (format_fixed 2 (div (div x time_diff) mib) ++ " MB/s")%string).
Proof.
  intros Hx Ht. unfold speed.
  destruct (delta <? 1048576).
  - rewrite (speed_value_Ok delta time_diff x 1024 kib Hx Ht of_int_1024 eq_refl).
    reflexivity.
  - rewrite (speed_value_Ok delta time_diff x 1048576 mib Hx Ht of_int_1048576 eq_refl).
    reflexivity.
Qed.

Lemma speed_overflow (delta : Z) (time_diff : float) :
  of_int delta = Raise OverflowError -> speed delta time_diff = Raise OverflowError.
Proof.
  intros Hx. unfold speed.
  destruct (delta <? 1048576); rewrite speed_value_overflow by exact Hx; reflexivity.
Qed.

Lemma speed_zero_div (delta : Z) (time_diff x : float) :
  of_int delta = Ok x -> is_zero time_diff = true ->
  speed delta time_diff = Raise ZeroDivisionError.
Proof.
  intros Hx Ht. unfold speed.
  destruct (delta <? 1048576);
    rewrite (speed_value_zero_div delta time_diff x) by assumption; reflexivity.
Qed.

(** When and what a direction raises. *)
Lemma speed_Raise (delta : Z) (time_diff : float) (e : exn) :
  speed delta time_diff = Raise e <->
  (of_int delta = Raise OverflowError /\ e = OverflowError) \/
  (returns (of_int delta) /\ is_zero time_diff = true /\ e = ZeroDivisionError).
Proof.
  destruct (of_int delta) as [x | e'] eqn:Hx.
  - destruct (is_zero time_diff) eqn:Ht.
    + rewrite (speed_zero_div delta time_diff x Hx Ht). split.
      * intros H. inversion H. right. repeat split. now exists x.
      * intros [[H _] | [_ [_ H]]]; [ discriminate | now subst ].
    + rewrite (speed_Ok delta time_diff x Hx Ht). split.
      * discriminate.
      * intros [[H _] | [_ [H _]]]; discriminate.
  - pose proof (of_int_Raise delta e' Hx). subst e'.
    rewrite (speed_overflow delta time_diff Hx). split.
    + intros H. inversion H. left. split; reflexivity.
    + intros [[_ H] | [[x H] _]]; [ now subst | discriminate ].
Qed.

Lemma speed_returns (delta : Z) (time_diff : float) :
  Z.abs delta < 2 ^ 1023 -> is_zero time_diff = false ->
  returns (speed delta time_diff).
Proof.
  intros Hd Ht. destruct (of_int_returns delta Hd) as [x Hx].
  rewrite (speed_Ok delta time_diff x Hx Ht). eexists; reflexivity.
Qed.

Lemma scaled_rate_sign (x time_diff y : float) :
  is_finite x = true -> is_nan time_diff = false -> is_zero time_diff = false ->
  is_finite y = true -> is_zero y = false -> signbit y = false ->
  is_nan (div (div x time_diff) y) = false /\
  signbit (div (div x time_diff) y) = xorb (signbit x) (signbit time_diff).
Proof.
  intros Hx Hn Hz Hy Hyz Hys.
  assert (Hxn : is_nan x = false) by (destruct x; try discriminate; reflexivity).
  assert (Hyn : is_nan y = false) by (destruct y; try discriminate; reflexivity).
  destruct (div_sign x time_diff Hxn Hn Hz (or_introl Hx)) as [H1 H2].
  destruct (div_sign (div x time_diff) y H1 Hyn Hyz (or_intror Hy)) as [H3 H4].
  split; [ exact H3 | ].
  rewrite H4, H2, Hys. apply xorb_false_r.
Qed.

(** A delta and an interval of opposite signs give a rate string with a
    minus sign. *)
Lemma speed_negative (delta : Z) (time_diff : float) :
  Z.abs delta < 2 ^ 1023 ->
  is_nan time_diff = false -> is_zero time_diff = false ->
  xorb (delta <? 0) (signbit time_diff) = true ->
  exists s, speed delta time_diff = Ok s /\ minus_sign s = true.
Proof.
  intros Hd Hn Hz Hs.
  destruct (of_int_returns delta Hd) as [x Hx].
  destruct (of_int_Ok delta x Hx) as [_ [Hf Hsx]].
  rewrite (speed_Ok delta time_diff x Hx Hz).
  eexists; split; [ reflexivity | ].
  destruct (delta <? 1048576).
  - destruct (scaled_rate_sign x time_diff kib Hf Hn Hz eq_refl eq_refl eq_refl) as [H1 H2].
    apply format_fixed_negative; [ exact H1 | ]. rewrite H2, Hsx. exact Hs.
  - destruct (scaled_rate_sign x time_diff mib Hf Hn Hz eq_refl eq_refl eq_refl) as [H1 H2].
    apply format_fixed_negative; [ exact H1 | ]. rewrite H2, Hsx. exact Hs.
Qed.

End Speed.

(** ** The sampling operation *)

Section Sampler.

Variables (current : snetio) (now : float).

Lemma network_speed_unprimed (self : ServerStatusMonitor) :
  primed self = false -> network_speed current now self = Ok zero_rate.
Proof.
  unfold primed, network_speed.
  destruct (_prev_net self), (_prev_ts self) as [ts | ]; try reflexivity.
  destruct (is_zero ts); [ reflexivity | discriminate ].
Qed.

Lemma network_speed_primed (self : ServerStatusMonitor) (prev_net : snetio) (prev_ts : float) :
  _prev_net self = Some prev_net -> _prev_ts self = Some prev_ts ->
  is_zero prev_ts = false ->
  network_speed current now self =
    (upload <- speed (bytes_sent current - bytes_sent prev_net) (sub now prev_ts) ;;
     download <- speed (bytes_recv current - bytes_recv prev_net) (sub now prev_ts) ;;
     Ok (upload, download)).
Proof.
  intros Hn Ht Hz. unfold network_speed. rewrite Hn, Ht, Hz. reflexivity.
Qed.

Lemma primed_inv (self : ServerStatusMonitor) :
  primed self = true ->
  exists prev_net prev_ts,
    _prev_net self = Some prev_net /\ _prev_ts self = Some prev_ts /\
    is_zero prev_ts = false.
Proof.
  unfold primed. destruct (_prev_net self) as [n | ], (_prev_ts self) as [t | ];
    try discriminate.
  intros H. exists n, t. repeat split. now destruct (is_zero t).
Qed.

Lemma calc_Ok (self : ServerStatusMonitor) (r : string * string) :
  network_speed current now self = Ok r ->
  _calc_network_speed current now self = (Ok r, stored current now).
Proof. intros H. unfold _calc_network_speed. rewrite H. reflexivity. Qed.

Lemma calc_Raise (self : ServerStatusMonitor) (e : exn) :
  network_speed current now self = Raise e ->
  _calc_network_speed current now self = (Raise e, self).
Proof. intros H. unfold _calc_network_speed. rewrite H. reflexivity. Qed.

Lemma network_speed_Ok_inv (self : ServerStatusMonitor) (u d : string) :
  network_speed current now self = Ok (u, d) ->
  primed self = false /\ (u, d) = zero_rate \/
  exists prev_net prev_ts,
    _prev_net self = Some prev_net /\ _prev_ts self = Some prev_ts /\
    is_zero prev_ts = false /\
    speed (bytes_sent current - bytes_sent prev_net) (sub now prev_ts) = Ok u /\
    speed (bytes_recv current - bytes_recv prev_net) (sub now prev_ts) = Ok d.
Proof.
  destruct (primed self) eqn:Hp.
  - destruct (primed_inv self Hp) as [n [t [Hn [Ht Hz]]]].
    rewrite (network_speed_primed self n t Hn Ht Hz).
    intros H. right. exists n, t. repeat split; try assumption.
    + destruct (speed (bytes_sent current - bytes_sent n) (sub now t)) as [u' | ];
        [ | discriminate ].
      cbn [bind] in H.
      destruct (speed (bytes_recv current - bytes_recv n) (sub now t)); [ | discriminate ].
      cbn [bind] in H. congruence.
    + destruct (speed (bytes_sent current - bytes_sent n) (sub now t)) as [u' | ];
        [ | discriminate ].
      cbn [bind] in H.
      destruct (speed (bytes_recv current - bytes_recv n) (sub now t)); [ | discriminate ].
      cbn [bind] in H. congruence.
  - rewrite (network_speed_unprimed self Hp). intros H. left. split; congruence.
Qed.

Lemma calc_Ok_inv (self self' : ServerStatusMonitor) (r : string * string) :
  _calc_network_speed current now self = (Ok r, self') ->
  network_speed current now self = Ok r.
Proof.
  unfold _calc_network_speed.
  destruct (network_speed current now self); intros H; congruence.
Qed.

End Sampler.

(** ** The first call and the stored snapshot *)

(** C4: the first call on a fresh sampler, one with no previous snapshot
    stored, returns "0.00 KB/s" for upload and for download whatever the
    counters of the snapshot are, and stores the snapshot and its time. *)
Theorem first_call_zero_rate (current : snetio) (now : float) (self : ServerStatusMonitor) :
  _prev_net self = None ->
  _calc_network_speed current now self =
    (Ok ("0.00 KB/s", "0.00 KB/s"),
     {| _prev_net := Some current; _prev_ts := Some now |}).
Proof.
  intros H. unfold _calc_network_speed, network_speed. rewrite H. reflexivity.
Qed.

Lemma first_call_zero_rate_witness :
  _prev_net {| _prev_net := None; _prev_ts := None |} = None /\
  _calc_network_speed {| bytes_sent := 123456789; bytes_recv := 987654321 |}
    (of_scaled 3400000000 (-1)) {| _prev_net := None; _prev_ts := None |} =
    (Ok ("0.00 KB/s", "0.00 KB/s"),
     {| _prev_net := Some {| bytes_sent := 123456789; bytes_recv := 987654321 |};
        _prev_ts := Some (of_scaled 3400000000 (-1)) |}).
Proof.
  split; [ reflexivity | ].
  apply (first_call_zero_rate {| bytes_sent := 123456789; bytes_recv := 987654321 |}
           (of_scaled 3400000000 (-1)) {| _prev_net := None; _prev_ts := None |}).
  reflexivity.
Defined.

Lemma zero_interval_raises :
  _calc_network_speed (counters 5000 7000) (half_seconds 200) (sampled 1000 2000 200) =
    (Raise ZeroDivisionError, sampled 1000 2000 200).
Proof. vm_compute. reflexivity. Qed.

(** C7, as the claim states it, fails: a call on a primed sampler at the
    stored time raises before lines 67 and 68, and the stored counters stay
    those of the earlier snapshot, not the ones just passed in. *)
Lemma overwrite_counterexample :
  primed (sampled 1000 2000 200) = true /\
  _prev_net (snd (_calc_network_speed (counters 5000 7000) (half_seconds 200)
                    (sampled 1000 2000 200)))
    = Some {| bytes_sent := 1000; bytes_recv := 2000 |} /\
  snd (_calc_network_speed (counters 5000 7000) (half_seconds 200) (sampled 1000 2000 200))
    <> {| _prev_net := Some {| bytes_sent := 5000; bytes_recv := 7000 |};
          _prev_ts := Some (of_scaled 200 (-1)) |}.
Proof.
  split; [ reflexivity | ].
  rewrite zero_interval_raises. cbn [snd]. split; [ reflexivity | discriminate ].
Qed.

(** C7, amended: a call that returns stores exactly the snapshot and time
    passed in; a call that raises leaves the stored snapshot and time as
    they were; either way a stored snapshot and a stored time never go
    back to [None], and a primed sampler stays primed when the time read
    is not zero. *)
Theorem state_after_call (current : snetio) (now : float) (self : ServerStatusMonitor) :
  (forall r, fst (_calc_network_speed current now self) = Ok r ->
             snd (_calc_network_speed current now self)
               = {| _prev_net := Some current; _prev_ts := Some now |} /\
             _prev_net (snd (_calc_network_speed current now self)) = Some current /\
             _prev_ts (snd (_calc_network_speed current now self)) = Some now) /\
  (forall e, fst (_calc_network_speed current now self) = Raise e ->
             snd (_calc_network_speed current now self) = self) /\
  (_prev_net self <> None ->
   _prev_net (snd (_calc_network_speed current now self)) <> None) /\
  (_prev_ts self <> None ->
   _prev_ts (snd (_calc_network_speed current now self)) <> None) /\
  (primed self = true -> is_zero now = false ->
   primed (snd (_calc_network_speed current now self)) = true).
Proof.
  unfold _calc_network_speed.
  destruct (network_speed current now self) as [r | e]; cbn [fst snd].
  - repeat split; try discriminate.
    intros _ Hz. unfold primed. cbn. rewrite Hz. reflexivity.
  - repeat split; try discriminate; auto.
Qed.

Lemma state_after_call_witness :
  snd (_calc_network_speed {| bytes_sent := 5000; bytes_recv := 7000 |}
         (of_scaled 220 (-1))
         {| _prev_net := Some {| bytes_sent := 1000; bytes_recv := 2000 |};
            _prev_ts := Some (of_scaled 200 (-1)) |})
    = {| _prev_net := Some {| bytes_sent := 5000; bytes_recv := 7000 |};
         _prev_ts := Some (of_scaled 220 (-1)) |} /\
  snd (_calc_network_speed {| bytes_sent := 5000; bytes_recv := 7000 |}
         (of_scaled 200 (-1))
         {| _prev_net := Some {| bytes_sent := 1000; bytes_recv := 2000 |};
            _prev_ts := Some (of_scaled 200 (-1)) |})
    = {| _prev_net := Some {| bytes_sent := 1000; bytes_recv := 2000 |};
         _prev_ts := Some (of_scaled 200 (-1)) |}.
Proof.
  split.
  - apply (proj1 (state_after_call {| bytes_sent := 5000; bytes_recv := 7000 |}
                    (of_scaled 220 (-1))
                    {| _prev_net := Some {| bytes_sent := 1000; bytes_recv := 2000 |};
                       _prev_ts := Some (of_scaled 200 (-1)) |})
             ("0.39 KB/s", "0.49 KB/s")).
    vm_compute. reflexivity.
  - apply (proj1 (proj2 (state_after_call {| bytes_sent := 5000; bytes_recv := 7000 |}
                    (of_scaled 200 (-1))
                    {| _prev_net := Some {| bytes_sent := 1000; bytes_recv := 2000 |};
                       _prev_ts := Some (of_scaled 200 (-1)) |}))
             ZeroDivisionError).
    vm_compute. reflexivity.
Defined.

(** ** A regular interval *)

Lemma speed_10240_in_10s : speed 10240 (of_scaled 10 0) = Ok "1.00 KB/s".
Proof. vm_compute. reflexivity. Qed.

(** C6: on a primed sampler, with an elapsed time of 10 seconds and
    10240 bytes more sent, the call returns the upload rate "1.00 KB/s"
    (the received counter moving by less than [2^1023]). *)
Theorem upload_10240_in_10s
    (current : snetio) (now : float) (self : ServerStatusMonitor)
    (prev_net : snetio) (prev_ts : float) :
  _prev_net self = Some prev_net -> _prev_ts self = Some prev_ts ->
  is_zero prev_ts = false ->
  sub now prev_ts = of_scaled 10 0 ->
  bytes_sent current - bytes_sent prev_net = 10240 ->
  Z.abs (bytes_recv current - bytes_recv prev_net) < 2 ^ 1023 ->
  exists download,
    _calc_network_speed current now self =
      (Ok ("1.00 KB/s", download), stored current now).
Proof.
  intros Hn Ht Hz He Hs Hr.
  destruct (speed_returns (bytes_recv current - bytes_recv prev_net) (of_scaled 10 0) Hr eq_refl)
    as [download Hd].
  exists download. apply calc_Ok.
  rewrite (network_speed_primed current now self prev_net prev_ts Hn Ht Hz).
  rewrite He, Hs, speed_10240_in_10s, Hd. reflexivity.
Qed.

Lemma upload_10240_in_10s_witness :
  exists download,
    _calc_network_speed (counters 11240 2000) (half_seconds 3400000020)
      (sampled 1000 2000 3400000000) =
      (Ok ("1.00 KB/s", download),
       stored (counters 11240 2000) (half_seconds 3400000020)).
Proof.
  apply (upload_10240_in_10s (counters 11240 2000) (half_seconds 3400000020)
           (sampled 1000 2000 3400000000)
           (counters 1000 2000) (half_seconds 3400000000));
    reflexivity.
Defined.

(** C10: two calls that agree on the stored time, the time read and the
    sent counters return the same upload string, whatever their received
    counters are; and two calls that agree on the times and the received
    counters return the same download string. *)
Theorem direction_independence
    (c1 c2 : snetio) (now : float) (s1 s2 s1' s2' : ServerStatusMonitor)
    (r1 r2 : string * string) :
  _prev_ts s1 = _prev_ts s2 ->
  _calc_network_speed c1 now s1 = (Ok r1, s1') ->
  _calc_network_speed c2 now s2 = (Ok r2, s2') ->
  (option_map bytes_sent (_prev_net s1) = option_map bytes_sent (_prev_net s2) ->
   bytes_sent c1 = bytes_sent c2 -> fst r1 = fst r2) /\
  (option_map bytes_recv (_prev_net s1) = option_map bytes_recv (_prev_net s2) ->
   bytes_recv c1 = bytes_recv c2 -> snd r1 = snd r2).
Proof.
  intros Hts H1 H2.
  apply calc_Ok_inv in H1. apply calc_Ok_inv in H2.
  destruct r1 as [u1 d1], r2 as [u2 d2]. cbn [fst snd].
  apply network_speed_Ok_inv in H1. apply network_speed_Ok_inv in H2.
  destruct H1 as [[P1 Z1] | [n1 [t1 [N1 [T1 [Z1 [U1 D1]]]]]]],
           H2 as [[P2 Z2] | [n2 [t2 [N2 [T2 [Z2 [U2 D2]]]]]]].
  - inversion Z1; inversion Z2; subst. split; reflexivity.
  - unfold primed in P1. rewrite Hts, T2, Z2 in P1.
    rewrite N2. destruct (_prev_net s1); [ discriminate | ].
    split; discriminate.
  - unfold primed in P2. rewrite <- Hts, T1, Z1 in P2.
    rewrite N1. destruct (_prev_net s2); [ discriminate | ].
    split; discriminate.
  - rewrite T1, T2 in Hts. inversion Hts; subst t2.
    rewrite N1, N2. cbn [option_map].
    split; intros Hp Hc; inversion Hp as [Hp']; congruence.
Qed.

Lemma direction_independence_witness :
  _calc_network_speed (counters 11240 2000) (half_seconds 220) (sampled 1000 2000 200) =
    (Ok ("1.00 KB/s", "0.00 KB/s"), stored (counters 11240 2000) (half_seconds 220)) /\
  _calc_network_speed (counters 11240 12345678) (half_seconds 220) (sampled 1000 0 200) =
    (Ok ("1.00 KB/s", "1.18 MB/s"), stored (counters 11240 12345678) (half_seconds 220)) /\
  fst ("1.00 KB/s", "0.00 KB/s") = fst ("1.00 KB/s", "1.18 MB/s").
Proof.
  assert (H1 : _calc_network_speed (counters 11240 2000) (half_seconds 220)
                 (sampled 1000 2000 200) =
               (Ok ("1.00 KB/s", "0.00 KB/s"),
                stored (counters 11240 2000) (half_seconds 220)))
    by (vm_compute; reflexivity).
  assert (H2 : _calc_network_speed (counters 11240 12345678) (half_seconds 220)
                 (sampled 1000 0 200) =
               (Ok ("1.00 KB/s", "1.18 MB/s"),
                stored (counters 11240 12345678) (half_seconds 220)))
    by (vm_compute; reflexivity).
  split; [ exact H1 | split; [ exact H2 | ] ].
  apply (proj1 (direction_independence
                  (counters 11240 2000) (counters 11240 12345678) (half_seconds 220)
                  (sampled 1000 2000 200) (sampled 1000 0 200)
                  (stored (counters 11240 2000) (half_seconds 220))
                  (stored (counters 11240 12345678) (half_seconds 220))
                  ("1.00 KB/s", "0.00 KB/s") ("1.00 KB/s", "1.18 MB/s")
                  eq_refl H1 H2));
    reflexivity.
Defined.

(** ** Degenerate intervals and counter regressions *)

(** C1, as the claim states it, fails: on a primed sampler a call at the
    stored time (elapsed = 0) divides by zero and raises, and a call at an
    earlier time (elapsed < 0) returns rates with a minus sign; neither
    returns the zero-rate result. *)
Lemma degenerate_interval_counterexample :
  primed (sampled 1000 2000 200) = true /\
  sub (half_seconds 200) (half_seconds 200) = zero /\
  fst (_calc_network_speed (counters 5000 7000) (half_seconds 200) (sampled 1000 2000 200))
    = Raise ZeroDivisionError /\
  ltb (sub (half_seconds 180) (half_seconds 200)) zero = true /\
  fst (_calc_network_speed (counters 11240 2000) (half_seconds 180) (sampled 1000 2000 200))
    = Ok ("-1.00 KB/s", "-0.00 KB/s").
Proof. vm_compute. repeat split. Qed.

Lemma degenerate_zero
    (current : snetio) (now : float) (self : ServerStatusMonitor)
    (prev_net : snetio) (prev_ts : float) :
  _prev_net self = Some prev_net -> _prev_ts self = Some prev_ts ->
  is_zero prev_ts = false ->
  is_zero (sub now prev_ts) = true ->
  exists e,
    _calc_network_speed current now self = (Raise e, self) /\
    (e = ZeroDivisionError \/ e = OverflowError) /\
    (Z.abs (bytes_sent current - bytes_sent prev_net) < 2 ^ 1023 ->
     e = ZeroDivisionError).
Proof.
  intros Hn Ht Hz He.
  destruct (of_int (bytes_sent current - bytes_sent prev_net)) as [x | e] eqn:Hx.
  - exists ZeroDivisionError. split; [ | split; [ now left | reflexivity ] ].
    apply calc_Raise.
    rewrite (network_speed_primed current now self prev_net prev_ts Hn Ht Hz).
    rewrite (speed_zero_div _ _ x Hx He). reflexivity.
  - pose proof (of_int_Raise _ _ Hx); subst e.
    exists OverflowError. split; [ | split; [ now right | ] ].
    + apply calc_Raise.
      rewrite (network_speed_primed current now self prev_net prev_ts Hn Ht Hz).
      rewrite (speed_overflow _ _ Hx). reflexivity.
    + intros Hb. destruct (of_int_returns _ Hb) as [x Hx']. congruence.
Qed.

(** C1, amended: on a primed sampler there is no guard on the interval.
    With elapsed = 0 the call raises instead of returning (ZeroDivisionError
    when the sent delta is below [2^1023], OverflowError from the conversion
    of the delta otherwise) and leaves the stored state as it was. With
    elapsed < 0 and counters that did not decrease (deltas below [2^1023])
    no division by zero happens: the call returns, stores the snapshot, and
    both rate strings carry a minus sign, so they are neither NaN nor the
    zero-rate result. *)
Theorem degenerate_interval
    (current : snetio) (now : float) (self : ServerStatusMonitor)
    (prev_net : snetio) (prev_ts : float) :
  _prev_net self = Some prev_net -> _prev_ts self = Some prev_ts ->
  is_zero prev_ts = false ->
  (is_zero (sub now prev_ts) = true ->
   exists e,
     _calc_network_speed current now self = (Raise e, self) /\
     (e = ZeroDivisionError \/ e = OverflowError) /\
     (Z.abs (bytes_sent current - bytes_sent prev_net) < 2 ^ 1023 ->
      e = ZeroDivisionError)) /\
  (ltb (sub now prev_ts) zero = true ->
   0 <= bytes_sent current - bytes_sent prev_net < 2 ^ 1023 ->
   0 <= bytes_recv current - bytes_recv prev_net < 2 ^ 1023 ->
   exists upload download,
     _calc_network_speed current now self = (Ok (upload, download), stored current now) /\
     minus_sign upload = true /\ minus_sign download = true).
Proof.
  intros Hn Ht Hz. split.
  - apply degenerate_zero; assumption.
  - intros He Hs Hr.
    destruct (ltb_zero_r _ He) as [Hnan [Hzero Hsign]].
    destruct (speed_negative (bytes_sent current - bytes_sent prev_net) (sub now prev_ts))
      as [upload [Hu Hu']]; try assumption; [ lia | | ].
    { rewrite Hsign. replace (_ <? 0) with false; [ reflexivity | ].
      symmetry. apply Z.ltb_ge. lia. }
    destruct (speed_negative (bytes_recv current - bytes_recv prev_net) (sub now prev_ts))
      as [download [Hd Hd']]; try assumption; [ lia | | ].
    { rewrite Hsign. replace (_ <? 0) with false; [ reflexivity | ].
      symmetry. apply Z.ltb_ge. lia. }
    exists upload, download. split; [ | split; assumption ].
    apply calc_Ok.
    rewrite (network_speed_primed current now self prev_net prev_ts Hn Ht Hz).
    rewrite Hu, Hd. reflexivity.
Qed.

Lemma degenerate_interval_witness :
  (exists e,
     _calc_network_speed (counters 5000 7000) (half_seconds 200) (sampled 1000 2000 200) =
       (Raise e, sampled 1000 2000 200) /\
     (e = ZeroDivisionError \/ e = OverflowError) /\
     (Z.abs (5000 - 1000) < 2 ^ 1023 -> e = ZeroDivisionError)) /\
  (exists upload download,
     _calc_network_speed (counters 5000 7000) (half_seconds 180) (sampled 1000 2000 200) =
       (Ok (upload, download), stored (counters 5000 7000) (half_seconds 180)) /\
     minus_sign upload = true /\ minus_sign download = true).
Proof.
  pose proof (degenerate_interval (counters 5000 7000) (half_seconds 200)
                (sampled 1000 2000 200) (counters 1000 2000) (half_seconds 200)
                eq_refl eq_refl eq_refl) as [H0 _].
  pose proof (degenerate_interval (counters 5000 7000) (half_seconds 180)
                (sampled 1000 2000 200) (counters 1000 2000) (half_seconds 200)
                eq_refl eq_refl eq_refl) as [_ H1].
  split.
  - apply H0. reflexivity.
  - apply H1; [ reflexivity | split; reflexivity || discriminate
                           | split; reflexivity || discriminate ].
Defined.

(** C2, as the claim states it, fails: after a reset of the sent counter
    (10240 stored, 0 read, 10 seconds later) the upload string is the
    negative rate, neither clamped to zero nor rebaselined. *)
Lemma counter_reset_counterexample :
  primed (sampled 10240 2000 200) = true /\
  ltb zero (sub (half_seconds 220) (half_seconds 200)) = true /\
  bytes_sent (counters 0 3000) < 10240 /\
  fst (_calc_network_speed (counters 0 3000) (half_seconds 220) (sampled 10240 2000 200))
    = Ok ("-1.00 KB/s", "0.10 KB/s") /\
  minus_sign "-1.00 KB/s" = true.
Proof. vm_compute. repeat split. Qed.

(** C2, amended: on a primed sampler with a positive elapsed time and deltas
    below [2^1023] in absolute value, no fallback is applied to a counter
    that went down: the call returns and stores the snapshot, and the rate
    string of each direction whose counter is smaller than the stored one
    is the negative rate itself, the delta over the elapsed time over 1024
    to two decimals with " KB/s", a number below zero or a negative zero
    shown with its minus sign; each direction is computed from its own
    counter only. *)
Theorem counter_regression
    (current : snetio) (now : float) (self : ServerStatusMonitor)
    (prev_net : snetio) (prev_ts : float) :
  _prev_net self = Some prev_net -> _prev_ts self = Some prev_ts ->
  is_zero prev_ts = false ->
  ltb zero (sub now prev_ts) = true ->
  Z.abs (bytes_sent current - bytes_sent prev_net) < 2 ^ 1023 ->
  Z.abs (bytes_recv current - bytes_recv prev_net) < 2 ^ 1023 ->
  exists sent recv upload download,
    of_int (bytes_sent current - bytes_sent prev_net) = Ok sent /\
    of_int (bytes_recv current - bytes_recv prev_net) = Ok recv /\
    _calc_network_speed current now self =
      (Ok (upload, download), {| _prev_net := Some current; _prev_ts := Some now |}) /\
    upload =
      (if bytes_sent current - bytes_sent prev_net <? 1048576
       then (format_fixed 2 (div (div sent (sub now prev_ts)) kib) ++ " KB/s")%string
       else (format_fixed 2 (div (div sent (sub now prev_ts)) mib) ++ " MB/s")%string) /\
    download =
      (if bytes_recv current - bytes_recv prev_net <? 1048576
       then (format_fixed 2 (div (div recv (sub now prev_ts)) kib) ++ " KB/s")%string
       else (format_fixed 2 (div (div recv (sub now prev_ts)) mib) ++ " MB/s")%string) /\
    (bytes_sent current < bytes_sent prev_net ->
     upload = (format_fixed 2 (div (div sent (sub now prev_ts)) kib) ++ " KB/s")%string /\
     is_nan (div (div sent (sub now prev_ts)) kib) = false /\
     signbit (div (div sent (sub now prev_ts)) kib) = true /\
     minus_sign upload = true) /\
    (bytes_recv current < bytes_recv prev_net ->
     download = (format_fixed 2 (div (div recv (sub now prev_ts)) kib) ++ " KB/s")%string /\
     is_nan (div (div recv (sub now prev_ts)) kib) = false /\
     signbit (div (div recv (sub now prev_ts)) kib) = true /\
     minus_sign download = true).
Proof.
  intros Hn Ht Hz He Hs Hr.
  destruct (ltb_zero_l _ He) as [Hnan [Hzero Hsign]].
  destruct (of_int_returns _ Hs) as [sent Hsent].
  destruct (of_int_returns _ Hr) as [recv Hrecv].
  assert (Hneg : forall delta x,
             of_int delta = Ok x -> delta < 0 ->
             (if delta <? 1048576
              then (format_fixed 2 (div (div x (sub now prev_ts)) kib) ++ " KB/s")%string
              else (format_fixed 2 (div (div x (sub now prev_ts)) mib) ++ " MB/s")%string)
               = (format_fixed 2 (div (div x (sub now prev_ts)) kib) ++ " KB/s")%string /\
             is_nan (div (div x (sub now prev_ts)) kib) = false /\
             signbit (div (div x (sub now prev_ts)) kib) = true /\
             minus_sign (format_fixed 2 (div (div x (sub now prev_ts)) kib) ++ " KB/s")
               = true).
  { intros delta x Hx Hlt.
    destruct (of_int_Ok delta x Hx) as [_ [Hf Hsx]].
    destruct (scaled_rate_sign x (sub now prev_ts) kib Hf Hnan Hzero eq_refl eq_refl eq_refl)
      as [H1 H2].
    assert (Hsb : signbit (div (div x (sub now prev_ts)) kib) = true).
    { rewrite H2, Hsx, Hsign, xorb_false_r. apply Z.ltb_lt. exact Hlt. }
    replace (delta <? 1048576) with true by (symmetry; apply Z.ltb_lt; lia).
    repeat split; try assumption.
    apply format_fixed_negative; assumption. }
  eexists sent, recv, _, _.
  split; [ exact Hsent | split; [ exact Hrecv | split; [ | split; [ reflexivity | split; [ reflexivity | split ] ] ] ] ].
  - unfold _calc_network_speed.
    rewrite (network_speed_primed current now self prev_net prev_ts Hn Ht Hz).
    rewrite (speed_Ok _ _ sent Hsent Hzero), (speed_Ok _ _ recv Hrecv Hzero).
    reflexivity.
  - intros Hlt.
    destruct (Hneg _ sent Hsent ltac:(lia)) as [H1 [H2 [H3 H4]]].
    rewrite H1. repeat split; assumption.
  - intros Hlt.
    destruct (Hneg _ recv Hrecv ltac:(lia)) as [H1 [H2 [H3 H4]]].
    rewrite H1. repeat split; assumption.
Qed.

Lemma counter_regression_witness :
  _calc_network_speed {| bytes_sent := 0; bytes_recv := 3000 |} (of_scaled 220 (-1))
    {| _prev_net := Some {| bytes_sent := 10240; bytes_recv := 2000 |};
       _prev_ts := Some (of_scaled 200 (-1)) |} =
    (Ok ("-1.00 KB/s", "0.10 KB/s"),
     {| _prev_net := Some {| bytes_sent := 0; bytes_recv := 3000 |};
        _prev_ts := Some (of_scaled 220 (-1)) |}).
Proof.
  destruct (counter_regression {| bytes_sent := 0; bytes_recv := 3000 |}
              (of_scaled 220 (-1))
              {| _prev_net := Some {| bytes_sent := 10240; bytes_recv := 2000 |};
                 _prev_ts := Some (of_scaled 200 (-1)) |}
              {| bytes_sent := 10240; bytes_recv := 2000 |} (of_scaled 200 (-1))
              eq_refl eq_refl eq_refl eq_refl eq_refl eq_refl)
    as [sent [recv [upload [download [Hs [Hr [Hc [Hu [Hd _]]]]]]]]].
  vm_compute in Hs. injection Hs as <-.
  vm_compute in Hr. injection Hr as <-.
  rewrite Hc, Hu, Hd. vm_compute. reflexivity.
Defined.

(** ** The unit of a rate *)

(** C3, as the claim states it, fails: the unit follows the byte delta, not
    the rate. 524288 bytes in half a second are exactly 1,048,576 bytes
    per second and are shown in KB/s; 2097152 bytes in ten seconds are
    209715.2 bytes per second and are shown in MB/s. *)
Lemma unit_selection_counterexample :
  primed (sampled 0 0 200) = true /\
  py_truediv (PInt 524288) (PFloat (sub (half_seconds 201) (half_seconds 200)))
    = Ok (of_scaled 1048576 0) /\
  fst (_calc_network_speed (counters 524288 0) (half_seconds 201) (sampled 0 0 200))
    = Ok ("1024.00 KB/s", "0.00 KB/s") /\
  spec_speed 524288 (sub (half_seconds 201) (half_seconds 200)) = Ok "1.00 MB/s" /\
  fst (_calc_network_speed (counters 2097152 0) (half_seconds 220) (sampled 0 0 200))
    = Ok ("0.20 MB/s", "0.00 KB/s") /\
  spec_speed 2097152 (sub (half_seconds 220) (half_seconds 200)) = Ok "204.80 KB/s".
Proof. vm_compute. repeat split. Qed.

(** C3, amended: on a primed sampler with a positive elapsed time and
    non-negative deltas below [2^1023], the unit of each direction is
    selected from the byte delta of the interval, not from the rate: a
    delta below 1,048,576 bytes is rendered in KB/s (delta over elapsed over
    1024), any other in MB/s (delta over elapsed over 1,048,576), with two
    decimals; a delta of exactly 1,048,576 bytes selects MB/s. *)
Theorem unit_selected_by_delta
    (current : snetio) (now : float) (self : ServerStatusMonitor)
    (prev_net : snetio) (prev_ts : float) :
  _prev_net self = Some prev_net -> _prev_ts self = Some prev_ts ->
  is_zero prev_ts = false ->
  ltb zero (sub now prev_ts) = true ->
  0 <= bytes_sent current - bytes_sent prev_net < 2 ^ 1023 ->
  0 <= bytes_recv current - bytes_recv prev_net < 2 ^ 1023 ->
  exists sent recv,
    of_int (bytes_sent current - bytes_sent prev_net) = Ok sent /\
    of_int (bytes_recv current - bytes_recv prev_net) = Ok recv /\
    _calc_network_speed current now self =
      (Ok (if bytes_sent current - bytes_sent prev_net <? 1048576
           then (format_fixed 2 (div (div sent (sub now prev_ts)) kib) ++ " KB/s")%string
           else (format_fixed 2 (div (div sent (sub now prev_ts)) mib) ++ " MB/s")%string,
           if bytes_recv current - bytes_recv prev_net <? 1048576
           then (format_fixed 2 (div (div recv (sub now prev_ts)) kib) ++ " KB/s")%string
           else (format_fixed 2 (div (div recv (sub now prev_ts)) mib) ++ " MB/s")%string),
       stored current now) /\
    (bytes_sent current - bytes_sent prev_net = 1048576 ->
     exists download,
       fst (_calc_network_speed current now self) =
         Ok ((format_fixed 2 (div (div sent (sub now prev_ts)) mib) ++ " MB/s")%string,
             download)) /\
    (bytes_recv current - bytes_recv prev_net = 1048576 ->
     exists upload,
       fst (_calc_network_speed current now self) =
         Ok (upload,
             (format_fixed 2 (div (div recv (sub now prev_ts)) mib) ++ " MB/s")%string)).
Proof.
  intros Hn Ht Hz He Hs Hr.
  destruct (ltb_zero_l _ He) as [Hnan [Hzero Hsign]].
  destruct (of_int_returns (bytes_sent current - bytes_sent prev_net)) as [sent Hsent];
    [ lia | ].
  destruct (of_int_returns (bytes_recv current - bytes_recv prev_net)) as [recv Hrecv];
    [ lia | ].
  exists sent, recv.
  assert (Hcalc : _calc_network_speed current now self =
      (Ok (if bytes_sent current - bytes_sent prev_net <? 1048576
           then (format_fixed 2 (div (div sent (sub now prev_ts)) kib) ++ " KB/s")%string
           else (format_fixed 2 (div (div sent (sub now prev_ts)) mib) ++ " MB/s")%string,
           if bytes_recv current - bytes_recv prev_net <? 1048576
           then (format_fixed 2 (div (div recv (sub now prev_ts)) kib) ++ " KB/s")%string
           else (format_fixed 2 (div (div recv (sub now prev_ts)) mib) ++ " MB/s")%string),
       stored current now)).
  { apply calc_Ok.
    rewrite (network_speed_primed current now self prev_net prev_ts Hn Ht Hz).
    rewrite (speed_Ok _ _ sent Hsent Hzero), (speed_Ok _ _ recv Hrecv Hzero).
    reflexivity. }
  split; [ exact Hsent | split; [ exact Hrecv | split; [ exact Hcalc | split ] ] ].
  - intros Heq. rewrite Hcalc, Heq. eexists. reflexivity.
  - intros Heq. rewrite Hcalc, Heq. eexists. reflexivity.
Qed.

Lemma unit_selected_by_delta_witness :
  exists upload,
    fst (_calc_network_speed (counters 1048575 1048576) (half_seconds 220) (sampled 0 0 200))
      = Ok (upload,
            (format_fixed 2 (div (div (of_scaled 1048576 0)
                                      (sub (half_seconds 220) (half_seconds 200))) mib)
               ++ " MB/s")%string).
Proof.
  destruct (unit_selected_by_delta (counters 1048575 1048576) (half_seconds 220)
              (sampled 0 0 200) (counters 0 0) (half_seconds 200))
    as [sent [recv [Hs [Hr [_ [_ Hm]]]]]];
    try (vm_compute; reflexivity).
  - split; [ cbn; lia | reflexivity ].
  - split; [ cbn; lia | reflexivity ].
  - injection Hr as <-. apply Hm. reflexivity.
Defined.

(** ** The unit formatter *)

Section FormatUnits.

Lemma format_units_loop_stop (fuel : nat) (num : pynum) (i : Z) :
  py_ge_int num 1024 && (i <? 4) = false ->
  format_units_loop fuel num i = Ok (num, i).
Proof. destruct fuel; cbn [format_units_loop]; intros ->; reflexivity. Qed.

(** The index only grows, and a round is entered only below 4. *)
Lemma format_units_loop_index (fuel : nat) :
  forall num i num' i',
    format_units_loop fuel num i = Ok (num', i') ->
    i <= i' /\ (i' <= 4 \/ i' = i).
Proof.
  induction fuel as [ | fuel IH ]; intros num i num' i'; cbn [format_units_loop];
    destruct (py_ge_int num 1024 && (i <? 4)) eqn:Hc; intros H;
    try (inversion H; subst; lia).
  destruct (py_truediv num (PInt 1024)) as [x | e]; [ | discriminate ].
  cbn [bind] in H. apply IH in H.
  apply andb_true_iff in Hc. destruct Hc as [_ Hi]. apply Z.ltb_lt in Hi. lia.
Qed.


Lemma int_truediv_Raise (a b : Z) (e : exn) :
  b <> 0 -> int_truediv a b = Raise e -> e = OverflowError.
Proof.
  intros Hb. unfold int_truediv.
  destruct b as [ | b | b ]; [ contradiction | | ];
    destruct (SFdiv_core_binary _ _ _ _ _ _) as [[q e'] l];
    destruct (binary_round_aux _ _ _ _ _ _); intros H; inversion H; reflexivity.
Qed.

Lemma truediv_1024_Raise (num : pynum) (e : exn) :
  py_truediv num (PInt 1024) = Raise e -> e = OverflowError.
Proof.
  destruct num as [z | x].
  - apply int_truediv_Raise. discriminate.
  - rewrite (truediv_int_const x 1024 kib of_int_1024 eq_refl). discriminate.
Qed.

Lemma format_units_loop_Raise (fuel : nat) :
  forall num i e, format_units_loop fuel num i = Raise e -> e = OverflowError.
Proof.
  induction fuel as [ | fuel IH ]; intros num i e; cbn [format_units_loop];
    destruct (py_ge_int num 1024 && (i <? 4)); try discriminate.
  destruct (py_truediv num (PInt 1024)) as [x | e'] eqn:Hd; cbn [bind].
  - apply IH.
  - intros H. inversion H; subst. eapply truediv_1024_Raise, Hd.
Qed.

(** On a float the loop raises nothing and leaves a float. *)
Lemma format_units_loop_float (fuel : nat) :
  forall x i, exists y i', format_units_loop fuel (PFloat x) i = Ok (PFloat y, i').
Proof.
  induction fuel as [ | fuel IH ]; intros x i; cbn [format_units_loop];
    destruct (py_ge_int (PFloat x) 1024 && (i <? 4)); try (eexists; eexists; reflexivity).
  rewrite (truediv_int_const x 1024 kib of_int_1024 eq_refl). cbn [bind]. apply IH.
Qed.

Lemma index_units (i : Z) :
  0 <= i <= 4 -> exists unit, index units i = Ok unit /\ In unit units.
Proof.
  intros H.
  assert (Hi : i = 0 \/ i = 1 \/ i = 2 \/ i = 3 \/ i = 4) by lia.
  destruct Hi as [-> | [-> | [-> | [-> | ->]]]];
    eexists; (split; [ reflexivity | cbn; tauto ]).
Qed.

Lemma format_f_accepted (num : pynum) (precision : Z) (x : float) :
  0 <= precision <= INT_MAX -> to_float num = Ok x ->
  format_f num precision = Ok (format_fixed (Z.to_nat precision) x).
Proof.
  intros H Hx. unfold format_f, INT_MAX, PY_SSIZE_T_MAX in *.
  replace (precision <? 0) with false by (symmetry; apply Z.ltb_ge; lia).
  replace (9223372036854775807 <? precision) with false
    by (symmetry; apply Z.ltb_ge; lia).
  cbn [orb]. rewrite Hx. cbn [bind].
  replace (2147483647 <? precision) with false by (symmetry; apply Z.ltb_ge; lia).
  reflexivity.
Qed.

Lemma format_f_float (x : float) (precision : Z) :
  0 <= precision <= INT_MAX ->
  format_f (PFloat x) precision = Ok (format_fixed (Z.to_nat precision) x).
Proof. intros H. now apply format_f_accepted. Qed.

Lemma format_f_Raise (num : pynum) (precision : Z) (e : exn) :
  format_f num precision = Raise e -> e = ValueError \/ e = OverflowError.
Proof.
  unfold format_f. destruct ((precision <? 0) || (PY_SSIZE_T_MAX <? precision)).
  - intros H. inversion H. now left.
  - destruct (to_float num) as [x | e'] eqn:Hx; cbn [bind].
    + destruct (INT_MAX <? precision); intros H; inversion H. now left.
    + intros H. inversion H; subst. right.
      destruct num as [z | y]; cbn [to_float] in Hx; [ | discriminate ].
      eapply of_int_Raise, Hx.
Qed.

(** A number below zero is below 1024. *)
Lemma lt_0_not_ge_1024 (num : pynum) :
  py_lt_int num 0 = true -> py_ge_int num 1024 = false.
Proof.
  destruct num as [z | x]; cbn [py_lt_int py_ge_int].
  - intros H. apply Z.ltb_lt in H. apply Z.leb_gt. lia.
  - destruct x as [s | [ | ] | | s m e]; cbn [compare_int]; try discriminate;
      try reflexivity.
    assert (Hp : forall k, 0 <= k -> 0 < 2 ^ k) by (intros; apply Z.pow_pos_nonneg; lia).
    destruct s; cbn [cond_Zopp].
    + intros _.
      destruct e as [ | k | k ].
      * reflexivity.
      * specialize (Hp (Zpos k) ltac:(lia)).
        replace (Z.opp (Zpos m) * 2 ^ Zpos k ?= 1024) with Lt; [ reflexivity | ].
        symmetry. apply Z.compare_lt_iff. nia.
      * specialize (Hp (Zpos k) ltac:(lia)).
        replace (Z.opp (Zpos m) ?= 1024 * 2 ^ Zpos k) with Lt; [ reflexivity | ].
        symmetry. apply Z.compare_lt_iff. nia.
    + destruct e as [ | k | k ].
      * discriminate.
      * specialize (Hp (Zpos k) ltac:(lia)).
        replace (Zpos m * 2 ^ Zpos k ?= 0) with Gt; [ discriminate | ].
        symmetry. apply Z.compare_gt_iff. nia.
      * discriminate.
Qed.

End FormatUnits.

Lemma format_units_Ok_inv (num : pynum) (precision : Z) (s : string) :
  format_units num precision = Ok s ->
  exists num' i body unit,
    format_units_loop 4 num 0 = Ok (num', i) /\ 0 <= i <= 4 /\
    format_f num' precision = Ok body /\
    index units i = Ok unit /\ In unit units /\
    s = (body ++ " " ++ unit)%string.
Proof.
  unfold format_units.
  destruct (format_units_loop 4 num 0) as [[num' i] | e] eqn:Hl; [ | discriminate ].
  cbn [bind].
  destruct (format_f num' precision) as [body | e] eqn:Hf; [ | discriminate ].
  cbn [bind].
  pose proof (format_units_loop_index 4 num 0 num' i Hl) as Hi.
  destruct (index_units i ltac:(lia)) as [unit [Hu Hin]].
  rewrite Hu. cbn [bind]. intros H. injection H as <-.
  exists num', i, body, unit. repeat split; auto; lia.
Qed.

Lemma format_units_float (x : float) (precision : Z) :
  0 <= precision <= INT_MAX ->
  exists body unit,
    format_units (PFloat x) precision = Ok (body ++ " " ++ unit)%string /\ In unit units.
Proof.
  intros Hp. unfold format_units.
  destruct (format_units_loop_float 4 x 0) as [y [i Hl]].
  pose proof (format_units_loop_index 4 _ 0 _ i Hl) as Hi.
  rewrite Hl. cbn [bind].
  rewrite (format_f_float y precision Hp). cbn [bind].
  destruct (index_units i ltac:(lia)) as [unit [Hu Hin]].
  rewrite Hu. cbn [bind].
  eexists; eexists; split; [ reflexivity | exact Hin ].
Qed.

Lemma format_units_Raise (num : pynum) (precision : Z) (e : exn) :
  format_units num precision = Raise e -> e = OverflowError \/ e = ValueError.
Proof.
  unfold format_units.
  destruct (format_units_loop 4 num 0) as [[num' i] | e'] eqn:Hl; cbn [bind].
  - destruct (format_f num' precision) as [body | e'] eqn:Hf; cbn [bind].
    + pose proof (format_units_loop_index 4 num 0 num' i Hl) as Hi.
      destruct (index_units i ltac:(lia)) as [unit [Hu Hin]].
      rewrite Hu. discriminate.
    + intros H. inversion H; subst.
      destruct (format_f_Raise _ _ _ Hf); auto.
  - intros H. inversion H; subst. left. eapply format_units_loop_Raise, Hl.
Qed.

(** C5: [format_units] gives "0.00 B" for 0, "1.00 KB" for 1024, "1.50 KB"
    for 1536 and "5.00 TB" for [5 * 1024^4], as ints and as floats; and for
    every non-negative input the unit is one of the table, TB at most, also
    from [1024^5] on, where the value stays above 1024. *)
Theorem format_units_examples_and_bound :
  format_units (PInt 0) 2 = Ok "0.00 B" /\
  format_units (PInt 1024) 2 = Ok "1.00 KB" /\
  format_units (PInt 1536) 2 = Ok "1.50 KB" /\
  format_units (PInt (1024 ^ 4 * 5)) 2 = Ok "5.00 TB" /\
  format_units (PFloat (of_scaled 0 0)) 2 = Ok "0.00 B" /\
  format_units (PFloat (of_scaled 1024 0)) 2 = Ok "1.00 KB" /\
  format_units (PFloat (of_scaled 1536 0)) 2 = Ok "1.50 KB" /\
  format_units (PFloat (of_scaled (1024 ^ 4 * 5) 0)) 2 = Ok "5.00 TB" /\
  format_units (PInt (1024 ^ 5)) 2 = Ok "1024.00 TB" /\
  (forall num precision s,
     py_ge_int num 0 = true -> format_units num precision = Ok s ->
     exists body unit, s = (body ++ " " ++ unit)%string /\ In unit units) /\
  (forall x precision,
     py_ge_int (PFloat x) 0 = true -> 0 <= precision <= INT_MAX ->
     exists body unit,
       format_units (PFloat x) precision = Ok (body ++ " " ++ unit)%string /\
       In unit units) /\
  (forall num precision, format_units num precision <> Raise IndexError).
Proof.
  do 9 (split; [ vm_compute; reflexivity | ]).
  split; [ | split ].
  - intros num precision s _ H.
    destruct (format_units_Ok_inv num precision s H)
      as [num' [i [body [unit [_ [_ [_ [_ [Hin Hs]]]]]]]]].
    exists body, unit. split; assumption.
  - intros x precision _ Hp. apply format_units_float, Hp.
  - intros num precision H.
    destruct (format_units_Raise num precision IndexError H); discriminate.
Qed.

Lemma format_units_examples_and_bound_witness :
  py_ge_int (PInt (1024 ^ 6)) 0 = true /\
  format_units (PInt (1024 ^ 6)) 2 = Ok "1048576.00 TB" /\
  exists body unit, "1048576.00 TB" = (body ++ " " ++ unit)%string /\ In unit units.
Proof.
  assert (H1 : py_ge_int (PInt (1024 ^ 6)) 0 = true) by reflexivity.
  assert (H2 : format_units (PInt (1024 ^ 6)) 2 = Ok "1048576.00 TB")
    by (vm_compute; reflexivity).
  split; [ exact H1 | split; [ exact H2 | ] ].
  destruct format_units_examples_and_bound
    as [_ [_ [_ [_ [_ [_ [_ [_ [_ [H _]]]]]]]]]].
  exact (H (PInt (1024 ^ 6)) 2 "1048576.00 TB" H1 H2).
Defined.

(** C9: for a number below zero the loop is not entered: [format_units]
    gives the number itself, formatted to the precision, followed by " B",
    and raises only what the formatting of the number raises. A negative
    float, and a negative int above [-2^1023], with a precision from 0 to
    [INT_MAX], is neither clamped to zero nor rejected: the string comes
    back and starts with a minus sign. *)
Theorem format_units_negative (num : pynum) (precision : Z) :
  py_lt_int num 0 = true ->
  format_units num precision =
    (body <- format_f num precision ;; Ok (body ++ " B")%string) /\
  (0 <= precision <= INT_MAX ->
   (exists z, num = PInt z /\ - 2 ^ 1023 < z) \/ (exists x, num = PFloat x) ->
   exists x,
     to_float num = Ok x /\
     format_units num precision = Ok (format_fixed (Z.to_nat precision) x ++ " B")%string /\
     minus_sign (format_fixed (Z.to_nat precision) x ++ " B") = true).
Proof.
  intros Hneg.
  assert (Heq : format_units num precision =
                (body <- format_f num precision ;; Ok (body ++ " B")%string)).
  { unfold format_units.
    rewrite format_units_loop_stop
      by (rewrite (lt_0_not_ge_1024 num Hneg); reflexivity).
    cbn [bind]. destruct (format_f num precision); reflexivity. }
  split; [ exact Heq | ].
  intros Hp Hnum.
  assert (Hx : exists x, to_float num = Ok x /\ is_nan x = false /\ signbit x = true).
  { destruct Hnum as [[z [-> Hz]] | [x ->]]; cbn [to_float].
    - cbn [py_lt_int] in Hneg. apply Z.ltb_lt in Hneg.
      destruct (of_int_returns z ltac:(lia)) as [x Hx]. exists x.
      destruct (of_int_Ok z x Hx) as [_ [Hf Hs]].
      repeat split; [ exact Hx | destruct x; try discriminate; reflexivity | ].
      rewrite Hs. apply Z.ltb_lt. exact Hneg.
    - exists x. cbn [py_lt_int] in Hneg.
      destruct x as [s | [ | ] | | [ | ] m e]; cbn [compare_int cond_Zopp] in Hneg;
        try discriminate; repeat split.
      assert (Hp2 : forall k, 0 <= k -> 0 < 2 ^ k) by (intros; apply Z.pow_pos_nonneg; lia).
      destruct e as [ | k | k ]; try discriminate.
      specialize (Hp2 (Zpos k) ltac:(lia)).
      replace (Zpos m * 2 ^ Zpos k ?= 0) with Gt in Hneg; [ discriminate | ].
      symmetry. apply Z.compare_gt_iff. nia. }
  destruct Hx as [x [Hx [Hn Hs]]]. exists x.
  split; [ exact Hx | ].
  split; [ | apply format_fixed_negative; assumption ].
  rewrite Heq, (format_f_accepted num precision x Hp Hx). reflexivity.
Qed.

Lemma format_units_negative_witness :
  format_units (PFloat (of_scaled (-1536) 0)) 2 = Ok "-1536.00 B" /\
  format_units (PInt (-5)) 2 = Ok "-5.00 B".
Proof.
  split.
  - destruct (format_units_negative (PFloat (of_scaled (-1536) 0)) 2 eq_refl) as [_ H].
    destruct H as [x [Hx [H _]]];
      [ unfold INT_MAX; lia | right; eexists; reflexivity | ].
    injection Hx as <-. rewrite H. vm_compute. reflexivity.
  - destruct (format_units_negative (PInt (-5)) 2 eq_refl) as [_ H].
    destruct H as [x [Hx [H _]]];
      [ unfold INT_MAX; lia | left; eexists; split; [ reflexivity | reflexivity ] | ].
    rewrite H. vm_compute in Hx. injection Hx as <-. vm_compute. reflexivity.
Defined.

(** ** Exceptions *)

(** C8, as the claim states it, fails: on a primed sampler a call at the
    stored time raises ZeroDivisionError out of [_calc_network_speed]
    instead of returning a zero output. *)
Lemma exception_counterexample :
  primed (sampled 1000 2000 200) = true /\
  raises (fst (_calc_network_speed (counters 5000 7000) (half_seconds 200)
                 (sampled 1000 2000 200))) /\
  fst (_calc_network_speed (counters 5000 7000) (half_seconds 200) (sampled 1000 2000 200))
    <> Ok zero_rate.
Proof.
  rewrite zero_interval_raises. cbn [fst].
  split; [ reflexivity | split; [ eexists; reflexivity | discriminate ] ].
Qed.

(** C8, amended: the core has no handler of its own, and what it raises
    reaches the caller. [_calc_network_speed] returns the zero-rate result
    when it is not primed; when primed it returns whenever the elapsed time
    is not zero and both deltas are below [2^1023] in absolute value, raises
    whenever the elapsed time is zero, and raises nothing but
    ZeroDivisionError and OverflowError. [format_units] returns for every
    float and every precision from 0 to [INT_MAX], and raises nothing but
    OverflowError (an int beyond the float range) and ValueError (a
    precision outside that range). *)
Theorem exceptions_of_the_core
    (current : snetio) (now : float) (self : ServerStatusMonitor) :
  (primed self = false ->
   _calc_network_speed current now self = (Ok zero_rate, stored current now)) /\
  (forall prev_net prev_ts,
     _prev_net self = Some prev_net -> _prev_ts self = Some prev_ts ->
     is_zero prev_ts = false ->
     (is_zero (sub now prev_ts) = false ->
      Z.abs (bytes_sent current - bytes_sent prev_net) < 2 ^ 1023 ->
      Z.abs (bytes_recv current - bytes_recv prev_net) < 2 ^ 1023 ->
      returns (fst (_calc_network_speed current now self))) /\
     (is_zero (sub now prev_ts) = true ->
      raises (fst (_calc_network_speed current now self)))) /\
  (forall e,
     fst (_calc_network_speed current now self) = Raise e ->
     primed self = true /\ (e = ZeroDivisionError \/ e = OverflowError)) /\
  (forall x precision,
     0 <= precision <= INT_MAX -> returns (format_units (PFloat x) precision)) /\
  (forall num precision e,
     format_units num precision = Raise e -> e = OverflowError \/ e = ValueError).
Proof.
  split; [ | split; [ | split; [ | split ] ] ].
  - intros Hp. apply calc_Ok, network_speed_unprimed, Hp.
  - intros prev_net prev_ts Hn Ht Hz. split.
    + intros He Hs Hr.
      destruct (speed_returns _ (sub now prev_ts) Hs He) as [upload Hu].
      destruct (speed_returns _ (sub now prev_ts) Hr He) as [download Hd].
      exists (upload, download).
      rewrite (calc_Ok current now self (upload, download)); [ reflexivity | ].
      rewrite (network_speed_primed current now self prev_net prev_ts Hn Ht Hz).
      rewrite Hu, Hd. reflexivity.
    + intros He.
      destruct (degenerate_zero current now self prev_net prev_ts Hn Ht Hz He)
        as [e [Hc _]].
      exists e. rewrite Hc. reflexivity.
  - intros e. unfold _calc_network_speed.
    destruct (network_speed current now self) as [r | e'] eqn:Hns; cbn [fst];
      [ discriminate | ].
    intros H. injection H as ->.
    destruct (primed self) eqn:Hp;
      [ | rewrite (network_speed_unprimed current now self Hp) in Hns; discriminate ].
    split; [ reflexivity | ].
    destruct (primed_inv self Hp) as [n [t [Hn [Ht Hz]]]].
    rewrite (network_speed_primed current now self n t Hn Ht Hz) in Hns.
    destruct (speed (bytes_sent current - bytes_sent n) (sub now t)) as [u | e1] eqn:Hu;
      cbn [bind] in Hns.
    + destruct (speed (bytes_recv current - bytes_recv n) (sub now t)) as [d | e2] eqn:Hd;
        cbn [bind] in Hns; [ discriminate | ].
      injection Hns as ->.
      apply speed_Raise in Hd. destruct Hd as [[_ ->] | [_ [_ ->]]]; auto.
    + injection Hns as ->.
      apply speed_Raise in Hu. destruct Hu as [[_ ->] | [_ [_ ->]]]; auto.
  - intros x precision Hp.
    destruct (format_units_float x precision Hp) as [body [unit [H _]]].
    eexists. exact H.
  - intros num precision e. apply format_units_Raise.
Qed.

Lemma exceptions_of_the_core_witness :
  returns (fst (_calc_network_speed (counters 5000 7000) (half_seconds 220)
                  (sampled 1000 2000 200))) /\
  raises (fst (_calc_network_speed (counters 5000 7000) (half_seconds 200)
                 (sampled 1000 2000 200))) /\
  returns (format_units (PFloat (of_scaled 1536 0)) 2).
Proof.
  split; [ | split ].
  - apply (proj1 (proj1 (proj2 (exceptions_of_the_core (counters 5000 7000)
                                  (half_seconds 220) (sampled 1000 2000 200)))
                    (counters 1000 2000) (half_seconds 200) eq_refl eq_refl eq_refl));
      reflexivity.
  - apply (proj2 (proj1 (proj2 (exceptions_of_the_core (counters 5000 7000)
                                  (half_seconds 200) (sampled 1000 2000 200)))
                    (counters 1000 2000) (half_seconds 200) eq_refl eq_refl eq_refl));
      reflexivity.
  - apply (proj1 (proj2 (proj2 (proj2 (exceptions_of_the_core (counters 0 0)
                                         (half_seconds 200) __init__))))).
    unfold INT_MAX; lia.
Defined.

(** ** More on the unit formatter *)

Section FormatUnitsMore.

Lemma int_truediv_1024_finite (z : Z) :
  Z.abs z < 2 ^ 1023 -> returns (int_truediv z 1024).
Proof.
  intros Hz. unfold int_truediv.
  change (Z.abs 1024) with 1024.
  destruct (SFdiv_core_binary prec emax (Z.abs z) 0 1024 0) as [[q e] l] eqn:Hc.
  assert (Hfin : is_finite (binary_round_aux prec emax (xorb (z <? 0) (1024 <? 0)) q e l) = true).
  { unfold SFdiv_core_binary in Hc. rewrite fexp_eq in Hc.
    change (Zdigits2 1024) with 11 in Hc.
    pose proof (Zdigits2_gt (Z.abs z) (Z.abs_nonneg z)) as Hd.
    pose proof (Zdigits2_nonneg (Z.abs z)) as Hd0.
    assert (Hd1 : Zdigits2 (Z.abs z) <= 1023)
      by (apply Zdigits2_le; [ apply Z.abs_nonneg | lia | exact Hz ]).
    set (d := Zdigits2 (Z.abs z)) in *.
    set (e' := Z.min (Z.max (d + 0 - (11 + 0) - 53) (-1074)) (0 - 0)) in *.
    assert (He' : e' <= 0) by (subst e'; lia).
    set (m' := match 0 - 0 - e' with
               | 0 => Z.abs z
               | Zpos _ => Z.shiftl (Z.abs z) (0 - 0 - e')
               | Zneg _ => 0
               end) in *.
    assert (Hm' : 0 <= m' < 2 ^ (d - e')).
    { subst m'. destruct (0 - 0 - e') as [ | s | s ] eqn:Hs.
      - replace (d - e') with d by lia. split; [ apply Z.abs_nonneg | exact Hd ].
      - rewrite Z.shiftl_mul_pow2 by lia.
        assert (Hp : 0 < 2 ^ Zpos s) by (apply Z.pow_pos_nonneg; lia).
        replace (d - e') with (d + Zpos s) by lia.
        rewrite Z.pow_add_r by lia.
        split; [ apply Z.mul_nonneg_nonneg; [ apply Z.abs_nonneg | lia ] | ].
        apply Z.mul_lt_mono_pos_r; assumption.
      - lia. }
    destruct (Z.div_eucl m' 1024) as [q' r] eqn:Hqr.
    injection Hc as <- <- <-.
    pose proof (Z_div_mod m' 1024 ltac:(lia)) as Hdm. rewrite Hqr in Hdm.
    assert (Hq : 0 <= q' <= m') by nia.
    apply binary_round_aux_finite; [ lia | lia | ].
    assert (Zdigits2 q' <= d - e'); [ | lia ].
    apply Zdigits2_le; lia. }
  destruct (binary_round_aux _ _ _ _ _ _); try discriminate; eexists; reflexivity.
Qed.

Lemma format_units_loop_int (z : Z) :
  Z.abs z < 2 ^ 1023 ->
  (exists i, format_units_loop 4 (PInt z) 0 = Ok (PInt z, i)) \/
  (exists y i, format_units_loop 4 (PInt z) 0 = Ok (PFloat y, i)).
Proof.
  intros Hz. cbn [format_units_loop].
  destruct (py_ge_int (PInt z) 1024 && (0 <? 4)).
  - right. destruct (int_truediv_1024_finite z Hz) as [x Hx].
    unfold py_truediv at 1. rewrite Hx. cbn [bind].
    apply (format_units_loop_float 3).
  - left. eexists. reflexivity.
Qed.

Lemma format_units_int_returns (z : Z) (precision : Z) :
  Z.abs z < 2 ^ 1023 -> 0 <= precision <= INT_MAX ->
  returns (format_units (PInt z) precision).
Proof.
  intros Hz Hp. unfold format_units.
  destruct (format_units_loop_int z Hz) as [[i Hl] | [y [i Hl]]];
    pose proof (format_units_loop_index 4 _ 0 _ i Hl) as Hi;
    destruct (index_units i ltac:(lia)) as [unit [Hu _]];
    rewrite Hl; cbn [bind].
  - destruct (of_int_returns z Hz) as [x Hx].
    rewrite (format_f_accepted (PInt z) precision x Hp Hx).
    cbn [bind]. rewrite Hu. cbn [bind]. eexists; reflexivity.
  - rewrite (format_f_float y precision Hp). cbn [bind]. rewrite Hu. cbn [bind].
    eexists; reflexivity.
Qed.

End FormatUnitsMore.

(** X1: the sizes the report formats are ints. For every int below
    [2^1023] in absolute value and every precision from 0 to [INT_MAX],
    [format_units] returns a string: neither the division nor the
    formatting overflows. *)
Theorem format_units_int_total (z : Z) (precision : Z) :
  Z.abs z < 2 ^ 1023 -> 0 <= precision <= INT_MAX ->
  exists body unit,
    format_units (PInt z) precision = Ok (body ++ " " ++ unit)%string /\
    In unit units.
Proof.
  intros Hz Hp.
  destruct (format_units_int_returns z precision Hz Hp) as [s Hs].
  destruct (format_units_Ok_inv _ _ _ Hs) as [n [i [body [unit [_ [_ [_ [_ [Hin ->]]]]]]]]].
  exists body, unit. split; assumption.
Qed.

Lemma format_units_int_total_witness :
  exists body unit,
    format_units (PInt 16542187520) 2 = Ok (body ++ " " ++ unit)%string /\
    In unit units.
Proof.
  apply (format_units_int_total 16542187520 2); [ reflexivity | unfold INT_MAX; lia ].
Defined.



Lemma forallb_range (f : Z -> bool) (a n : nat) :
  forallb f (map Z.of_nat (seq a n)) = true ->
  forall k, Z.of_nat a <= k < Z.of_nat a + Z.of_nat n -> f k = true.
Proof.
  intros H k Hk. rewrite forallb_forall in H. apply H.
  apply in_map_iff. exists (Z.to_nat k). split; [ lia | ].
  apply in_seq. lia.
Qed.

Lemma exact_multiples_checked :
  forallb (fun j =>
    forallb (fun k =>
      match format_units (PInt (k * 1024 ^ j)) 2,
            format_units (PFloat (of_scaled (k * 1024 ^ j) 0)) 2,
            index units j with
      | Ok s, Ok s', Ok unit =>
          ((s =? decimal k ++ ".00 " ++ unit) && (s' =? s))%string
      | _, _, _ => false
      end) (map Z.of_nat (seq 1 1023))) (map Z.of_nat (seq 0 5)) = true.
Proof. vm_compute. reflexivity. Qed.

(** X3: a whole number of units is shown exactly. For every [k] from 1 to
    1023 and every unit of the table, [k] units (the int [k * 1024^j], or
    the same value as a float) are formatted as [k], ".00" and the unit:
    the repeated division by 1024 loses nothing. *)
Theorem format_units_exact_multiples (k j : Z) (unit : string) :
  1 <= k < 1024 -> 0 <= j <= 4 -> index units j = Ok unit ->
  format_units (PInt (k * 1024 ^ j)) 2 = Ok (decimal k ++ ".00 " ++ unit)%string /\
  format_units (PFloat (of_scaled (k * 1024 ^ j) 0)) 2
    = Ok (decimal k ++ ".00 " ++ unit)%string.
Proof.
  intros Hk Hj Hu.
  pose proof (forallb_range _ 0 5 exact_multiples_checked j ltac:(cbn; lia)) as H.
  cbv beta in H.
  pose proof (forallb_range _ 1 1023 H k ltac:(cbn; lia)) as H'.
  cbv beta in H'. rewrite Hu in H'.
  destruct (format_units (PInt (k * 1024 ^ j)) 2) as [s | ]; [ | discriminate ].
  destruct (format_units (PFloat (of_scaled (k * 1024 ^ j) 0)) 2) as [s' | ];
    [ | discriminate ].
  apply andb_true_iff in H'. destruct H' as [H1 H2].
  apply String.eqb_eq in H1. apply String.eqb_eq in H2. subst. split; reflexivity.
Qed.

Lemma format_units_exact_multiples_witness :
  format_units (PInt (512 * 1024 ^ 2)) 2 = Ok "512.00 MB" /\
  format_units (PFloat (of_scaled (512 * 1024 ^ 2) 0)) 2 = Ok "512.00 MB".
Proof.
  apply (format_units_exact_multiples 512 2 "MB"); [ lia | lia | reflexivity ].
Defined.

(** X4: floats that are no numbers are not refused. For every precision
    from 0 to [INT_MAX], a NaN is shown as "nan B", minus infinity as
    "-inf B" (neither is at least 1024), and plus infinity runs the loop
    to its end and is shown as "inf TB". *)
Theorem format_units_not_finite (precision : Z) :
  0 <= precision <= INT_MAX ->
  format_units (PFloat S754_nan) precision = Ok "nan B" /\
  format_units (PFloat (S754_infinity true)) precision = Ok "-inf B" /\
  format_units (PFloat (S754_infinity false)) precision = Ok "inf TB".
Proof.
  intros Hp. unfold format_units.
  repeat split;
    match goal with
    | |- context [format_units_loop 4 (PFloat ?x) 0] =>
        let r := eval vm_compute in (format_units_loop 4 (PFloat x) 0) in
        replace (format_units_loop 4 (PFloat x) 0) with r by (vm_compute; reflexivity)
    end;
    cbn [bind]; rewrite format_f_float by exact Hp; reflexivity.
Qed.

Lemma format_units_not_finite_witness :
  format_units (PFloat S754_nan) 2 = Ok "nan B" /\
  format_units (PFloat (S754_infinity true)) 2 = Ok "-inf B" /\
  format_units (PFloat (S754_infinity false)) 2 = Ok "inf TB".
Proof.
  apply (format_units_not_finite 2). unfold INT_MAX. lia.
Defined.

(** ** More on the sampler *)

Section SamplerMore.

Lemma sub_diag (x : float) : is_finite x = true -> sub x x = zero.
Proof.
  destruct x as [[ | ] | s | | s m e]; try discriminate; intros _; try reflexivity.
  cbn [sub SFsub]. rewrite Z.sub_diag. reflexivity.
Qed.

Lemma of_int_0 : of_int 0 = Ok zero.
Proof. reflexivity. Qed.

Lemma speed_idle (time_diff : float) :
  ltb zero time_diff = true -> speed 0 time_diff = Ok "0.00 KB/s".
Proof.
  intros H. destruct (ltb_zero_l _ H) as [_ [Hz Hs]].
  rewrite (speed_Ok 0 time_diff zero of_int_0 Hz).
  destruct time_diff as [s | s | | s m e]; try discriminate;
    cbn [signbit] in Hs; subst s; reflexivity.
Qed.

Lemma length_append (a b : string) :
  String.length (a ++ b) = (String.length a + String.length b)%nat.
Proof. induction a as [ | c a IH ]; cbn; [ reflexivity | now rewrite IH ]. Qed.

Lemma append_suffix_inj (b1 b2 t1 t2 : string) :
  String.length t1 = String.length t2 ->
  (b1 ++ t1 = b2 ++ t2)%string -> t1 = t2.
Proof.
  revert b2. induction b1 as [ | c b1 IH ]; intros b2 Hl H.
  - destruct b2 as [ | c' b2 ]; [ exact H | ].
    cbn [append] in H. rewrite H in Hl. cbn [String.length] in Hl.
    rewrite length_append in Hl. lia.
  - destruct b2 as [ | c' b2 ].
    + cbn [append] in H. rewrite <- H in Hl. cbn [String.length] in Hl.
      rewrite length_append in Hl. lia.
    + cbn [append] in H. injection H as _ H. eapply IH; eassumption.
Qed.

Lemma speed_Ok_inv (delta : Z) (time_diff : float) (s : string) :
  speed delta time_diff = Ok s ->
  exists x,
    of_int delta = Ok x /\ is_zero time_diff = false /\
    s = if delta <? 1048576
        then (format_fixed 2 (div (div x time_diff) kib) ++ " KB/s")%string
        else (format_fixed 2 (div (div x time_diff) mib) ++ " MB/s")%string.
Proof.
  intros H.
  destruct (of_int delta) as [x | e] eqn:Hx.
  - destruct (is_zero time_diff) eqn:Hz.
    + rewrite (speed_zero_div delta time_diff x Hx Hz) in H. discriminate.
    + rewrite (speed_Ok delta time_diff x Hx Hz) in H. injection H as <-.
      exists x. repeat split.
  - pose proof (of_int_Raise _ _ Hx); subst e.
    rewrite (speed_overflow delta time_diff Hx) in H. discriminate.
Qed.

Lemma speed_unit (delta : Z) (time_diff : float) (s : string) :
  speed delta time_diff = Ok s ->
  ((exists body, s = (body ++ " MB/s")%string) <-> 1048576 <= delta) /\
  ((exists body, s = (body ++ " KB/s")%string) <-> delta < 1048576).
Proof.
  intros H. destruct (speed_Ok_inv _ _ _ H) as [x [_ [_ ->]]].
  destruct (Z.ltb_spec delta 1048576) as [Hlt | Hge]; split; split.
  - intros [body Hb]. apply append_suffix_inj in Hb; [ discriminate | reflexivity ].
  - lia.
  - intros _. exact Hlt.
  - intros _. eexists. reflexivity.
  - intros _. exact Hge.
  - intros _. eexists. reflexivity.
  - intros [body Hb]. apply append_suffix_inj in Hb; [ discriminate | reflexivity ].
  - lia.
Qed.

Lemma calc_returned_state
    (current : snetio) (now : float) (self : ServerStatusMonitor) (r : string * string) :
  fst (_calc_network_speed current now self) = Ok r ->
  snd (_calc_network_speed current now self) = stored current now.
Proof.
  unfold _calc_network_speed.
  destruct (network_speed current now self); [ reflexivity | discriminate ].
Qed.

End SamplerMore.

(** X5: a second call at the same time reading never returns. After a
    call that returned at a finite, non-zero time, a call at that same time
    raises ZeroDivisionError, whatever its counters (the sent counter
    within [2^1023] of the stored one), and the stored snapshot stays the
    one of the first call. *)
Theorem same_time_again
    (current current' : snetio) (now : float) (self : ServerStatusMonitor)
    (r : string * string) :
  is_finite now = true -> is_zero now = false ->
  fst (_calc_network_speed current now self) = Ok r ->
  Z.abs (bytes_sent current' - bytes_sent current) < 2 ^ 1023 ->
  _calc_network_speed current' now (snd (_calc_network_speed current now self))
    = (Raise ZeroDivisionError, stored current now).
Proof.
  intros Hf Hz H1 Hb.
  rewrite (calc_returned_state _ _ _ _ H1). apply calc_Raise.
  rewrite (network_speed_primed current' now (stored current now) current now
             eq_refl eq_refl Hz).
  destruct (of_int_returns _ Hb) as [x Hx].
  rewrite (speed_zero_div _ _ x Hx); [ reflexivity | ].
  rewrite (sub_diag now Hf). reflexivity.
Qed.

Lemma same_time_again_witness :
  _calc_network_speed (counters 9000 9000) (half_seconds 220)
    (snd (_calc_network_speed (counters 5000 7000) (half_seconds 220)
            (sampled 1000 2000 200)))
    = (Raise ZeroDivisionError, stored (counters 5000 7000) (half_seconds 220)).
Proof.
  apply (same_time_again (counters 5000 7000) (counters 9000 9000) (half_seconds 220)
           (sampled 1000 2000 200) ("0.39 KB/s", "0.49 KB/s"));
    vm_compute; reflexivity.
Defined.

(** X6: an idle link. On a primed sampler, after a positive elapsed time
    of any length, counters that did not move give "0.00 KB/s" in both
    directions, the same pair as the first call, and the snapshot is
    stored. *)
Theorem idle_link_zero_rate
    (current : snetio) (now : float) (self : ServerStatusMonitor)
    (prev_net : snetio) (prev_ts : float) :
  _prev_net self = Some prev_net -> _prev_ts self = Some prev_ts ->
  is_zero prev_ts = false ->
  ltb zero (sub now prev_ts) = true ->
  bytes_sent current = bytes_sent prev_net ->
  bytes_recv current = bytes_recv prev_net ->
  _calc_network_speed current now self =
    (Ok ("0.00 KB/s", "0.00 KB/s"), stored current now).
Proof.
  intros Hn Ht Hz He Hs Hr. apply calc_Ok.
  rewrite (network_speed_primed current now self prev_net prev_ts Hn Ht Hz).
  rewrite Hs, Hr, !Z.sub_diag, (speed_idle _ He). reflexivity.
Qed.

Lemma idle_link_zero_rate_witness :
  _calc_network_speed (counters 1000 2000) (half_seconds 201) (sampled 1000 2000 200) =
    (Ok ("0.00 KB/s", "0.00 KB/s"), stored (counters 1000 2000) (half_seconds 201)).
Proof.
  apply (idle_link_zero_rate (counters 1000 2000) (half_seconds 201)
           (sampled 1000 2000 200) (counters 1000 2000) (half_seconds 200));
    reflexivity.
Defined.

(** X7: the unit of a returned rate tells the size of the delta, and only
    that. Whenever a call on a primed sampler returns, its upload string
    ends in " MB/s" exactly when at least 1,048,576 more bytes were sent
    and in " KB/s" exactly when fewer were, and the same for the download
    string and the bytes received. *)
Theorem unit_tells_delta
    (current : snetio) (now : float) (self self' : ServerStatusMonitor)
    (prev_net : snetio) (prev_ts : float) (upload download : string) :
  _prev_net self = Some prev_net -> _prev_ts self = Some prev_ts ->
  is_zero prev_ts = false ->
  _calc_network_speed current now self = (Ok (upload, download), self') ->
  ((exists body, upload = (body ++ " MB/s")%string)
     <-> 1048576 <= bytes_sent current - bytes_sent prev_net) /\
  ((exists body, upload = (body ++ " KB/s")%string)
     <-> bytes_sent current - bytes_sent prev_net < 1048576) /\
  ((exists body, download = (body ++ " MB/s")%string)
     <-> 1048576 <= bytes_recv current - bytes_recv prev_net) /\
  ((exists body, download = (body ++ " KB/s")%string)
     <-> bytes_recv current - bytes_recv prev_net < 1048576).
Proof.
  intros Hn Ht Hz H. apply calc_Ok_inv in H.
  apply network_speed_Ok_inv in H.
  destruct H as [[Hp _] | [n [t [Hn' [Ht' [_ [Hu Hd]]]]]]].
  - unfold primed in Hp. rewrite Hn, Ht, Hz in Hp. discriminate.
  - rewrite Hn in Hn'. rewrite Ht in Ht'.
    injection Hn' as <-. injection Ht' as <-.
    destruct (speed_unit _ _ _ Hu) as [H1 H2].
    destruct (speed_unit _ _ _ Hd) as [H3 H4].
    repeat split; (apply H1 || apply H2 || apply H3 || apply H4).
Qed.

Lemma unit_tells_delta_witness :
  (exists body, "1.18 MB/s" = (body ++ " MB/s")%string) <-> 1048576 <= 12345678 - 0.
Proof.
  apply (unit_tells_delta (counters 11240 12345678) (half_seconds 220)
           (sampled 1000 0 200) (stored (counters 11240 12345678) (half_seconds 220))
           (counters 1000 0) (half_seconds 200) "1.00 KB/s" "1.18 MB/s");
    vm_compute; reflexivity.
Defined.

(** ** The uptime and the load average *)

Section Uptime.

Lemma decimal_no_minus (n : Z) : minus_sign (decimal n) = false.
Proof.
  unfold decimal, NilZero.string_of_uint.
  destruct (N.to_uint (Z.to_N n)); reflexivity.
Qed.

Lemma decimal_nonempty (n : Z) : nonempty (decimal n) = true.
Proof.
  unfold decimal, NilZero.string_of_uint.
  destruct (N.to_uint (Z.to_N n)); reflexivity.
Qed.

Lemma str_int_minus (z : Z) (rest : string) :
  minus_sign (str_int z ++ rest) = (z <? 0).
Proof.
  unfold str_int. destruct (z <? 0).
  - cbn [append]. apply minus_sign_dash.
  - pose proof (decimal_no_minus z) as H. pose proof (decimal_nonempty z) as H'.
    destruct (decimal z) as [ | c s ]; [ discriminate | ].
    unfold minus_sign in *. cbn [append prefix] in *.
    destruct (ascii_dec "-" c); [ | reflexivity ].
    destruct s; discriminate.
Qed.

End Uptime.

(** X8: what the uptime string shows. For every pair of datetimes the
    string is built from days, hours and minutes with hours from 0 to 23
    and minutes from 0 to 59, and these account for the whole seconds
    between the boot and the present to within a minute; the seconds
    and microseconds left over are dropped, never rounded up. *)
Theorem uptime_components (now boot : Z) :
  exists d h m,
    _get_uptime now boot
      = (str_int d ++ "天" ++ str_int h ++ "时" ++ str_int m ++ "分")%string /\
    0 <= h < 24 /\ 0 <= m < 60 /\
    d * 86400 + h * 3600 + m * 60 <= (now - boot) / 1000000
      < d * 86400 + h * 3600 + m * 60 + 60.
Proof.
  unfold _get_uptime, datetime_sub. cbn [days seconds].
  set (us := now - boot).
  exists (us / 86400000000), (us mod 86400000000 / 1000000 / 3600),
         (us mod 86400000000 / 1000000 mod 3600 / 60).
  split; [ reflexivity | ].
  repeat match goal with
         | |- context [?a / ?b] =>
             lazymatch b with
             | context [Z.div] => fail
             | context [Z.modulo] => fail
             | _ => idtac
             end;
             lazymatch a with
             | context [Z.div] => fail
             | context [Z.modulo] => fail
             | _ => idtac
             end;
             let q := fresh "q" in
             let H := fresh "H" in
             pose proof (Z.div_mod a b ltac:(lia)) as H;
             pose proof (Z.mod_pos_bound a b ltac:(lia));
             set (q := a / b) in *
         | |- context [?a mod ?b] =>
             lazymatch a with
             | context [Z.div] => fail
             | context [Z.modulo] => fail
             | _ => idtac
             end;
             let r := fresh "r" in
             set (r := a mod b) in *
         end.
  lia.
Qed.

(** X9: a clock behind the boot time. When the present reads earlier
    than the boot time the uptime string starts with a minus sign (the
    days are negative, while hours and minutes stay within their ranges);
    otherwise it never does. *)
Theorem uptime_sign (now boot : Z) :
  minus_sign (_get_uptime now boot) = (now <? boot).
Proof.
  unfold _get_uptime, datetime_sub. cbn [days seconds].
  rewrite str_int_minus.
  destruct (Z.ltb_spec now boot) as [Hlt | Hge].
  - apply Z.ltb_lt. apply Z.div_lt_upper_bound; lia.
  - apply Z.ltb_ge. apply Z.div_pos; lia.
Qed.

(** X10: what [_get_load_avg] does with what [os.getloadavg] does. It
    returns [None] exactly when AttributeError was raised, and that is the
    only exception it stops: any other one is raised again unchanged.
    When three loads are read it returns their two-decimal forms joined by
    "/", a string that is never empty. *)
Theorem load_avg_outcomes (g : outcome (float * float * float)) :
  (_get_load_avg g = Returned None <-> g = Raised AttributeError) /\
  (forall e, _get_load_avg g = Raised e <-> g = Raised e /\ e <> AttributeError) /\
  (forall s,
     _get_load_avg g = Returned (Some s) <->
     exists load0 load1 load2,
       g = Returned (load0, load1, load2) /\
       s = (format_fixed 2 load0 ++ "/" ++ format_fixed 2 load1 ++ "/"
              ++ format_fixed 2 load2)%string) /\
  (forall s, _get_load_avg g = Returned (Some s) -> truthy (Some s) = true).
Proof.
  assert (Hne : forall a b c,
             nonempty (format_fixed 2 a ++ "/" ++ format_fixed 2 b ++ "/"
                         ++ format_fixed 2 c) = true).
  { intros a b c. destruct (format_fixed 2 a); reflexivity. }
  destruct g as [[[a b] c] | e]; cbn [_get_load_avg].
  - repeat split; try discriminate.
    + intros [H _]. discriminate.
    + intros H. injection H as <-. exists a, b, c. split; reflexivity.
    + intros [a' [b' [c' [H ->]]]]. injection H as -> -> ->. reflexivity.
    + intros s H. injection H as <-. apply Hne.
  - destruct e; repeat split; try discriminate; try congruence;
      try (intros [H1 H2]; congruence);
      try (intros [a [b [c [H _]]]]; discriminate).
Qed.

Lemma load_avg_outcomes_witness :
  _get_load_avg (Raised AttributeError) = Returned None /\
  _get_load_avg (Raised (OtherException "OSError")) = Raised (OtherException "OSError").
Proof.
  split.
  - apply (proj1 (load_avg_outcomes (Raised AttributeError))). reflexivity.
  - apply (proj1 (proj2 (load_avg_outcomes (Raised (OtherException "OSError"))))
             (OtherException "OSError")).
    split; [ reflexivity | discriminate ].
Defined.

(** ** The command handler *)

Section QueryStatus.

Variables (py : interpreter) (E : env) (self : ServerStatusMonitor).

Lemma before_sampling_Raised (e : exception) :
  before_sampling E = Raised e -> reading_raises E e.
Proof.
  unfold before_sampling, reading_raises.
  destruct (gather E (get_disk_root (system E))) as [[[[cpu mem] disk] procs] | e0];
    cbn [obind].
  - destruct (getloadavg E) as [[[a b] c] | e1]; cbn [_get_load_avg obind].
    + discriminate.
    + destruct e1; cbn [obind]; intros H; try discriminate;
        injection H as <-; right; right; left; reflexivity.
  - intros H. injection H as <-. left. reflexivity.
Qed.

Lemma before_sampling_Returned
    (cpu : float) (mem : svmem) (disk : sdiskusage) (procs : outcome nat)
    (load_avg : option string) :
  before_sampling E = Returned (cpu, mem, disk, procs, load_avg) ->
  gather E (get_disk_root (system E)) = Returned (cpu, mem, disk, procs) /\
  _get_load_avg (getloadavg E) = Returned load_avg.
Proof.
  unfold before_sampling.
  destruct (gather E (get_disk_root (system E))) as [[[[cpu' mem'] disk'] procs'] | e0];
    cbn [obind]; [ | discriminate ].
  destruct (_get_load_avg (getloadavg E)) as [l | e1]; cbn [obind]; [ | discriminate ].
  intros H. injection H as -> -> -> -> ->. split; reflexivity.
Qed.

Lemma sampling_Raised (e : exception) :
  fst (sampling E self) = Raised e ->
  net_io_counters E = Raised e \/ exists b, e = Builtin b.
Proof.
  unfold sampling. destruct (net_io_counters E) as [current | e0]; cbn [fst].
  - destruct (fst (_calc_network_speed current (timestamp E) self)) as [r | b];
      cbn [of_result]; [ discriminate | ].
    intros H. injection H as <-. right. eexists. reflexivity.
  - intros H. injection H as <-. left. reflexivity.
Qed.

Lemma of_result_Raised {A : Type} (r : result A) (e : exception) :
  of_result r = Raised e -> exists b, e = Builtin b.
Proof.
  destruct r as [a | b]; cbn [of_result]; [ discriminate | ].
  intros H. injection H as <-. eexists. reflexivity.
Qed.

Lemma after_sampling_Raised
    (cpu : float) (mem : svmem) (disk : sdiskusage) (procs : outcome nat)
    (load_avg : option string) (up down : string) (e : exception) :
  after_sampling py E cpu mem disk procs load_avg up down = Raised e ->
  cpu_count E = Raised e \/ net_connections E = Raised e \/ boot_time E = Raised e \/
  procs = Raised e \/ exists b, e = Builtin b.
Proof.
  unfold after_sampling.
  destruct (cpu_count E) as [cores | e0]; cbn [obind];
    [ | intros H; injection H as <-; auto ].
  destruct (net_connections E) as [conns | e0]; cbn [obind];
    [ | intros H; injection H as <-; auto ].
  destruct (boot_time E) as [boot | e0]; cbn [obind];
    [ | intros H; injection H as <-; auto ].
  destruct (of_result (format_units (PInt (vm_used mem)) 2)) as [mu | e0] eqn:H1;
    cbn [obind];
    [ | intros H; injection H as <-; apply of_result_Raised in H1; auto 6 ].
  destruct (of_result (format_units (PInt (vm_total mem)) 2)) as [mt | e0] eqn:H2;
    cbn [obind];
    [ | intros H; injection H as <-; apply of_result_Raised in H2; auto 6 ].
  destruct (of_result (format_units (PInt (du_used disk)) 2)) as [du | e0] eqn:H3;
    cbn [obind];
    [ | intros H; injection H as <-; apply of_result_Raised in H3; auto 6 ].
  destruct (of_result (format_units (PInt (du_total disk)) 2)) as [dt | e0] eqn:H4;
    cbn [obind];
    [ | intros H; injection H as <-; apply of_result_Raised in H4; auto 6 ].
  destruct procs as [n | e0]; cbn [obind]; [ discriminate | ].
  intros H. injection H as <-. auto 6.
Qed.

Lemma try_body_Raised (e : exception) :
  fst (try_body py E self) = Raised e ->
  reading_raises E e \/ exists b, e = Builtin b.
Proof.
  unfold try_body.
  destruct (before_sampling E) as [[[[[cpu mem] disk] procs] load_avg] | e0] eqn:Hb;
    cbn [fst].
  - destruct (before_sampling_Returned _ _ _ _ _ Hb) as [Hg _].
    pose proof (sampling_Raised e) as Hs.
    destruct (sampling E self) as [[[up down] | e1] self'] eqn:Hsamp; cbn [fst] in *.
    + intros H. apply after_sampling_Raised in H.
      unfold reading_raises.
      destruct H as [H | [H | [H | [H | H]]]]; auto 10.
      subst procs. left. right. left. exists cpu, mem, disk. exact Hg.
    + intros H. injection H as <-.
      destruct (Hs eq_refl) as [H' | H']; [ | auto ].
      left. unfold reading_raises. auto 10.
  - intros H. injection H as <-. left. apply before_sampling_Raised, Hb.
Qed.

Lemma try_body_after
    (cpu : float) (mem : svmem) (disk : sdiskusage) (procs : outcome nat)
    (load_avg : option string) (current : snetio) (r : string * string) :
  before_sampling E = Returned (cpu, mem, disk, procs, load_avg) ->
  net_io_counters E = Returned current ->
  fst (_calc_network_speed current (timestamp E) self) = Ok r ->
  try_body py E self =
    (after_sampling py E cpu mem disk procs load_avg (fst r) (snd r),
     stored current (timestamp E)).
Proof.
  intros Hb Hn Hc. unfold try_body, sampling. rewrite Hb, Hn, Hc.
  rewrite (calc_returned_state _ _ _ _ Hc).
  destruct r as [up down]. reflexivity.
Qed.

Lemma before_sampling_reads
    (cpu : float) (mem : svmem) (disk : sdiskusage) (procs : outcome nat) :
  gather E (get_disk_root (system E)) = Returned (cpu, mem, disk, procs) ->
  (exists load0 load1 load2, getloadavg E = Returned (load0, load1, load2)) \/
  getloadavg E = Raised AttributeError ->
  before_sampling E =
    Returned (cpu, mem, disk, procs,
              match getloadavg E with
              | Returned (load0, load1, load2) =>
                  Some (format_fixed 2 load0 ++ "/" ++ format_fixed 2 load1
                          ++ "/" ++ format_fixed 2 load2)%string
              | Raised _ => None
              end).
Proof.
  intros Hg Hl. unfold before_sampling. rewrite Hg. cbn [obind].
  destruct Hl as [[a [b [c Hl]]] | Hl]; rewrite Hl; reflexivity.
Qed.

End QueryStatus.

(** X11: [query_status] answers whatever goes wrong. Whatever the readings
    return or raise and whatever the sampler holds, the only way it ends
    without yielding a message is an exception that is no [Exception]
    (such as a cancellation), raised by one of the readings; nothing that
    the computations raise, a division by zero included, gets through. So
    when no reading raises such an exception, a message is yielded. *)
Theorem query_status_raises_only
    (py : interpreter) (E : env) (self : ServerStatusMonitor) :
  (forall e, fst (query_status py E self) = Raised e ->
             is_Exception e = false /\ reading_raises E e) /\
  ((forall e, reading_raises E e -> is_Exception e = true) ->
   exists text, fst (query_status py E self) = Returned text).
Proof.
  assert (H : forall e, fst (query_status py E self) = Raised e ->
                        is_Exception e = false /\ reading_raises E e).
  { intros e. unfold query_status.
    pose proof (try_body_Raised py E self) as Ht.
    destruct (try_body py E self) as [[text | e0] self']; cbn [fst] in *;
      [ discriminate | ].
    specialize (Ht e0 eq_refl).
    destruct e0; cbn [handler]; try discriminate.
    intros Hr. injection Hr as <-. split; [ reflexivity | ].
    destruct Ht as [Ht | [b Hb]]; [ exact Ht | discriminate ]. }
  split; [ exact H | ].
  intros Hall.
  destruct (fst (query_status py E self)) as [text | e] eqn:Hq.
  - exists text. reflexivity.
  - destruct (H e eq_refl) as [Hn Hr]. rewrite (Hall e Hr) in Hn. discriminate.
Qed.

Lemma query_status_raises_only_witness :
  exists text,
    fst (query_status example_interpreter (example_env (Raised AccessDenied) 200)
           (sampled 1000 2000 200)) = Returned text.
Proof.
  apply (proj2 (query_status_raises_only example_interpreter
                  (example_env (Raised AccessDenied) 200) (sampled 1000 2000 200))).
  intros e [H | [[c [m [d H]]] | [H | [H | [H | [H | H]]]]]];
    vm_compute in H; try discriminate.
  injection H as <-. reflexivity.
Defined.

(** X12: a report refused for permissions still moves the sampler on.
    When everything up to the sampler returns and
    [psutil.net_connections] then raises AccessDenied, the message is the
    permission message, and the snapshot and time of this run are
    stored all the same: the next report measures from here. *)
Theorem permission_denied_after_sampling
    (py : interpreter) (E : env) (self : ServerStatusMonitor)
    (cpu : float) (mem : svmem) (disk : sdiskusage) (procs : outcome nat)
    (current : snetio) (r : string * string) (cores : option Z) :
  gather E (get_disk_root (system E)) = Returned (cpu, mem, disk, procs) ->
  (exists load0 load1 load2, getloadavg E = Returned (load0, load1, load2)) \/
  getloadavg E = Raised AttributeError ->
  net_io_counters E = Returned current ->
  fst (_calc_network_speed current (timestamp E) self) = Ok r ->
  cpu_count E = Returned cores ->
  net_connections E = Raised AccessDenied ->
  query_status py E self =
    (Returned "⛔ 权限不足，请以重现尝试！",
     {| _prev_net := Some current; _prev_ts := Some (timestamp E) |}).
Proof.
  intros Hg Hl Hn Hc Hcores Hconns.
  pose proof (before_sampling_reads E cpu mem disk procs Hg Hl) as Hb.
  unfold query_status.
  rewrite (try_body_after py E self _ _ _ _ _ _ _ Hb Hn Hc).
  unfold after_sampling. rewrite Hcores, Hconns. reflexivity.
Qed.

Lemma permission_denied_after_sampling_witness :
  query_status example_interpreter (example_env (Raised AccessDenied) 220)
    {| _prev_net := Some {| bytes_sent := 1000; bytes_recv := 2000 |};
       _prev_ts := Some (of_scaled 200 (-1)) |} =
    (Returned "⛔ 权限不足，请以重现尝试！",
     {| _prev_net := Some {| bytes_sent := 5000; bytes_recv := 7000 |};
        _prev_ts := Some (of_scaled 220 (-1)) |}).
Proof.
  apply (permission_denied_after_sampling example_interpreter
           (example_env (Raised AccessDenied) 220)
           {| _prev_net := Some {| bytes_sent := 1000; bytes_recv := 2000 |};
              _prev_ts := Some (of_scaled 200 (-1)) |}
           (of_scaled 25 (-1))
           {| vm_percent := of_scaled 125 (-1);
              vm_used := 4294967296; vm_total := 8589934592 |}
           {| du_percent := of_scaled 50 0;
              du_used := 53687091200; du_total := 107374182400 |}
           (Returned 150%nat)
           {| bytes_sent := 5000; bytes_recv := 7000 |}
           ("0.39 KB/s", "0.49 KB/s") (Some 4));
    try (vm_compute; reflexivity).
  left. exists (of_scaled 1 (-1)), (of_scaled 1 (-2)), (of_scaled 0 0). reflexivity.
Defined.

(** X13: the division by zero of the sampler is reported, not fatal. When
    the readings up to the sampler return and the time read equals the
    stored one on a primed sampler (sent delta below [2^1023]),
    [query_status] yields the failure message with the text of
    ZeroDivisionError, and the sampler keeps the snapshot it had. *)
Theorem zero_interval_is_reported
    (py : interpreter) (E : env) (self : ServerStatusMonitor)
    (cpu : float) (mem : svmem) (disk : sdiskusage) (procs : outcome nat)
    (load_avg : option string) (current prev_net : snetio) (prev_ts : float) :
  before_sampling E = Returned (cpu, mem, disk, procs, load_avg) ->
  net_io_counters E = Returned current ->
  _prev_net self = Some prev_net -> _prev_ts self = Some prev_ts ->
  is_zero prev_ts = false ->
  is_zero (sub (timestamp E) prev_ts) = true ->
  Z.abs (bytes_sent current - bytes_sent prev_net) < 2 ^ 1023 ->
  query_status py E self =
    (Returned ("❗ 监控异常：" ++ str_exception py (Builtin ZeroDivisionError))%string,
     self).
Proof.
  intros Hb Hn Hpn Hpt Hz He Hd.
  destruct (degenerate_zero current (timestamp E) self prev_net prev_ts Hpn Hpt Hz He)
    as [e [Hc [_ Hzd]]].
  rewrite (Hzd Hd) in Hc.
  unfold query_status, try_body, sampling. rewrite Hb, Hn, Hc. reflexivity.
Qed.

Lemma zero_interval_is_reported_witness :
  query_status example_interpreter (example_env (Returned 42%nat) 200)
    (sampled 1000 2000 200) =
    (Returned "❗ 监控异常：float division by zero", sampled 1000 2000 200).
Proof.
  apply (zero_interval_is_reported example_interpreter
           (example_env (Returned 42%nat) 200) (sampled 1000 2000 200)
           (of_scaled 25 (-1))
           {| vm_percent := of_scaled 125 (-1);
              vm_used := 4294967296; vm_total := 8589934592 |}
           {| du_percent := of_scaled 50 0;
              du_used := 53687091200; du_total := 107374182400 |}
           (Returned 150%nat) (Some "0.50/0.25/0.00")
           (counters 5000 7000) (counters 1000 2000) (half_seconds 200));
    vm_compute; reflexivity.
Defined.

(** X14: the lines that are sent. With the load average a run obtained
    from [_get_load_avg], the report has its 12 lines, the fourth showing
    the three loads, when [os.getloadavg] returned them; and 11 lines, the
    load line left out and the CPU line fourth, when there is no load
    average. No other line is ever left out, and the "N/A" of the load
    line is never shown. *)
Theorem report_lines
    (py : interpreter) (E : env) (g : outcome (float * float * float))
    (load_avg : option string)
    (cpu : float) (mem : svmem) (disk : sdiskusage) (up down : string)
    (cores : option Z) (conns : nat) (uptime mu mt du dt : string) (procs : nat) :
  _get_load_avg g = Returned load_avg ->
  match load_avg with
  | Some s =>
      List.length (sent_lines (status_report py E cpu mem disk load_avg up down
                                 cores conns uptime mu mt du dt procs)) = 12%nat /\
      nth_error (sent_lines (status_report py E cpu mem disk load_avg up down
                               cores conns uptime mu mt du dt procs)) 3
        = Some ("▪ 系统负载 : " ++ s ++ " (1/5/15min)")%string
  | None =>
      List.length (sent_lines (status_report py E cpu mem disk load_avg up down
                                 cores conns uptime mu mt du dt procs)) = 11%nat /\
      nth_error (sent_lines (status_report py E cpu mem disk load_avg up down
                               cores conns uptime mu mt du dt procs)) 3
        = Some ("▪ CPU使用  : " ++ str_int_or_None cores ++ "核 "
                  ++ str_float py cpu ++ "%")%string
  end.
Proof.
  intros Hg.
  destruct load_avg as [s | ].
  - assert (Hs : nonempty s = true).
    { destruct g as [[[a b] c] | e]; cbn [_get_load_avg] in Hg.
      - injection Hg as <-. destruct (format_fixed 2 a); reflexivity.
      - destruct e; discriminate. }
    unfold sent_lines, status_report. cbn [truthy or_else]. rewrite Hs.
    cbn [filter nonempty append]. split; reflexivity.
  - unfold sent_lines, status_report. cbn [truthy filter nonempty append].
    split; reflexivity.
Qed.

Lemma report_lines_witness :
  List.length (sent_lines (status_report example_interpreter
                             (example_env (Returned 42%nat) 220)
                             (of_scaled 25 (-1))
                             {| vm_percent := of_scaled 125 (-1);
                                vm_used := 4294967296; vm_total := 8589934592 |}
                             {| du_percent := of_scaled 50 0;
                                du_used := 53687091200; du_total := 107374182400 |}
                             None "0.39 KB/s" "0.49 KB/s" (Some 4) 42 "1天2时3分"
                             "4.00 GB" "8.00 GB" "50.00 GB" "100.00 GB" 150)) = 11%nat.
Proof.
  apply (report_lines example_interpreter (example_env (Returned 42%nat) 220)
           (Raised AttributeError) None).
  reflexivity.
Defined.

(** X15: when nothing fails the report is yielded. If every reading
    returns (the load average may be missing), the sampler returns, and the
    four sizes of memory and disk are below [2^1023], then [query_status]
    yields these lines joined by newlines: the title, the rule, the
    uptime, the three loads when there are any, the cores and the CPU
    percentage, memory and disk with their sizes through [format_units],
    the two rates of this sample, the numbers of processes and
    connections, the system, the time and the rule; and the sampler holds
    the snapshot and time of this run. *)
Theorem report_is_yielded
    (py : interpreter) (E : env) (self : ServerStatusMonitor)
    (cpu : float) (mem : svmem) (disk : sdiskusage) (procs : nat)
    (current : snetio) (upload download : string)
    (cores : option Z) (conns : nat) (boot : Z) :
  gather E (get_disk_root (system E)) = Returned (cpu, mem, disk, Returned procs) ->
  (exists load0 load1 load2, getloadavg E = Returned (load0, load1, load2)) \/
  getloadavg E = Raised AttributeError ->
  net_io_counters E = Returned current ->
  fst (_calc_network_speed current (timestamp E) self) = Ok (upload, download) ->
  cpu_count E = Returned cores ->
  net_connections E = Returned conns ->
  boot_time E = Returned boot ->
  Z.abs (vm_used mem) < 2 ^ 1023 -> Z.abs (vm_total mem) < 2 ^ 1023 ->
  Z.abs (du_used disk) < 2 ^ 1023 -> Z.abs (du_total disk) < 2 ^ 1023 ->
  exists mem_used mem_total disk_used disk_total,
    format_units (PInt (vm_used mem)) 2 = Ok mem_used /\
    format_units (PInt (vm_total mem)) 2 = Ok mem_total /\
    format_units (PInt (du_used disk)) 2 = Ok disk_used /\
    format_units (PInt (du_total disk)) 2 = Ok disk_total /\
    query_status py E self =
      (Returned
         (concat (String "010" "")
            (app
               [ "🔍 状态监控";
                 "======================";
                 "▪ 运行时长 : " ++ _get_uptime (clock E) boot ]
             (app
                match getloadavg E with
                | Returned (load0, load1, load2) =>
                    [ "▪ 系统负载 : "
                        ++ (format_fixed 2 load0 ++ "/" ++ format_fixed 2 load1
                              ++ "/" ++ format_fixed 2 load2)
                        ++ " (1/5/15min)" ]
                | Raised _ => []
                end
                [ "▪ CPU使用  : " ++ str_int_or_None cores ++ "核 "
                    ++ str_float py cpu ++ "%";
                  "▪ 内存状态 : " ++ str_float py (vm_percent mem) ++ "% ("
                    ++ mem_used ++ "/" ++ mem_total ++ ")";
                  "▪ 磁盘使用 : " ++ str_float py (du_percent disk) ++ "% ("
                    ++ disk_used ++ "/" ++ disk_total ++ ")";
                  "▪ 网络速率 : ↑" ++ upload ++ "  ↓" ++ download;
                  "▪ 进程状态 : " ++ str_int (Z.of_nat procs) ++ "运行中 | "
                    ++ str_int (Z.of_nat conns) ++ "连接数";
                  "▪ 系统版本 : " ++ system E ++ " " ++ release E;
                  "🕒 报告时间 : " ++ report_time E;
                  "======================" ]))%string),
       {| _prev_net := Some current; _prev_ts := Some (timestamp E) |}).
Proof.
  intros Hg Hl Hn Hc Hcores Hconns Hboot H1 H2 H3 H4.
  assert (Hp : 0 <= 2 <= INT_MAX) by (unfold INT_MAX; lia).
  destruct (format_units_int_returns _ 2 H1 Hp) as [mu Hmu].
  destruct (format_units_int_returns _ 2 H2 Hp) as [mt Hmt].
  destruct (format_units_int_returns _ 2 H3 Hp) as [du Hdu].
  destruct (format_units_int_returns _ 2 H4 Hp) as [dt Hdt].
  exists mu, mt, du, dt. repeat (split; [ assumption | ]).
  pose proof (before_sampling_reads E cpu mem disk (Returned procs) Hg Hl) as Hb.
  unfold query_status.
  rewrite (try_body_after py E self _ _ _ _ _ _ _ Hb Hn Hc).
  unfold after_sampling.
  rewrite Hcores, Hconns, Hboot, Hmu, Hmt, Hdu, Hdt.
  cbn [obind of_result fst snd]. unfold stored, newline.
  f_equal. f_equal. f_equal.
  unfold sent_lines, status_report.
  destruct Hl as [[a [b [c Hl]]] | Hl]; rewrite Hl.
  - assert (Hs : nonempty (format_fixed 2 a ++ "/" ++ format_fixed 2 b ++ "/"
                             ++ format_fixed 2 c) = true)
      by (destruct (format_fixed 2 a); reflexivity).
    cbn [truthy or_else]. rewrite Hs.
    cbn [filter nonempty append app]. reflexivity.
  - cbn [truthy filter nonempty append app]. reflexivity.
Qed.

Lemma report_is_yielded_witness :
  query_status example_interpreter (example_env (Returned 42%nat) 220)
    {| _prev_net := Some {| bytes_sent := 1000; bytes_recv := 2000 |};
       _prev_ts := Some (of_scaled 200 (-1)) |} =
    (Returned "🔍 状态监控
======================
▪ 运行时长 : 1天2时3分
▪ 系统负载 : 0.50/0.25/0.00 (1/5/15min)
▪ CPU使用  : 4核 12.5%
▪ 内存状态 : 62.5% (4.00 GB/8.00 GB)
▪ 磁盘使用 : 50.0% (50.00 GB/100.00 GB)
▪ 网络速率 : ↑0.39 KB/s  ↓0.49 KB/s
▪ 进程状态 : 150运行中 | 42连接数
▪ 系统版本 : Linux 6.1.0
🕒 报告时间 : 2025-01-01 12:00:00
======================",
     {| _prev_net := Some {| bytes_sent := 5000; bytes_recv := 7000 |};
        _prev_ts := Some (of_scaled 220 (-1)) |}).
Proof.
  assert (Hl : (exists load0 load1 load2,
                  getloadavg (example_env (Returned 42%nat) 220)
                    = Returned (load0, load1, load2)) \/
               getloadavg (example_env (Returned 42%nat) 220) = Raised AttributeError).
  { left. exists (of_scaled 1 (-1)), (of_scaled 1 (-2)), (of_scaled 0 0). reflexivity. }
  destruct (report_is_yielded example_interpreter (example_env (Returned 42%nat) 220)
              {| _prev_net := Some {| bytes_sent := 1000; bytes_recv := 2000 |};
                 _prev_ts := Some (of_scaled 200 (-1)) |}
              (of_scaled 25 (-1))
              {| vm_percent := of_scaled 125 (-1);
                 vm_used := 4294967296; vm_total := 8589934592 |}
              {| du_percent := of_scaled 50 0;
                 du_used := 53687091200; du_total := 107374182400 |}
              150%nat {| bytes_sent := 5000; bytes_recv := 7000 |}
              "0.39 KB/s" "0.49 KB/s" (Some 4) 42%nat 0
              eq_refl Hl eq_refl ltac:(vm_compute; reflexivity)
              eq_refl eq_refl eq_refl eq_refl eq_refl eq_refl eq_refl)
    as [mu [mt [du [dt [Hmu [Hmt [Hdu [Hdt H]]]]]]]].
  vm_compute in Hmu. injection Hmu as <-.
  vm_compute in Hmt. injection Hmt as <-.
  vm_compute in Hdu. injection Hdu as <-.
  vm_compute in Hdt. injection Hdt as <-.
  rewrite H. vm_compute. reflexivity.
Defined.
